(** * Speed-test pipeline of [src/app.py]: a shallow embedding

    The handler [run_test] of [src/app.py] reads the request body, runs the
    external [speedtest --json] command under a timeout, looks for the last
    line of its standard output that starts with an opening brace, decodes
    it with [json.loads], formats the three metrics and hands them, with the
    caller's context, to a text generator.  Every exception is turned into a
    failure response by one of four [except] clauses.

    Python text is a list of code points, Python numbers are unbounded
    integers ([Z]) and IEEE 754 binary64 values ([spec_float], precision 53,
    [emax] 1024), exceptions are values of an error monad. *)

From Stdlib Require Import ZArith List Bool Lia String Ascii QArith.
From Stdlib Require Import SpecFloat.
Import ListNotations.


Set Warnings "-register-all".
Local Open Scope Z_scope.

(* ================================================================== *)
(** ** Python text *)
(* ================================================================== *)

(** A Python [str] is a sequence of Unicode code points. *)
Definition pystr := list N.

Module Text.

(** Decoding of the UTF-8 bytes of a Rocq string literal, so that the
    literals of the source can be written down as they are. *)
Definition byte (c : ascii) : N := N_of_ascii c.

Definition cont (c : ascii) : N := (byte c) mod 64.

Fixpoint utf8 (s : string) : pystr :=
  match s with
  | EmptyString => []
  | String c0 s0 =>
      let b0 := byte c0 in
      if (b0 <? 192)%N then b0 :: utf8 s0
      else match s0 with
      | EmptyString => [b0]
      | String c1 s1 =>
          if (b0 <? 224)%N
          then ((b0 mod 32) * 64 + cont c1)%N :: utf8 s1
          else match s1 with
          | EmptyString => [b0]
          | String c2 s2 =>
              if (b0 <? 240)%N
              then ((b0 mod 16) * 4096 + cont c1 * 64 + cont c2)%N :: utf8 s2
              else match s2 with
              | EmptyString => [b0]
              | String c3 s3 =>
                  ((b0 mod 8) * 262144 + cont c1 * 4096
                   + cont c2 * 64 + cont c3)%N :: utf8 s3
              end
          end
      end
  end.

(** [str.isspace] on one code point: the characters [str.strip()]
    removes. *)
Definition isspace (c : N) : bool :=
  ((9 <=? c) && (c <=? 13) || (28 <=? c) && (c <=? 32)
   || (c =? 133) || (c =? 160) || (c =? 5760)
   || (8192 <=? c) && (c <=? 8202)
   || (c =? 8232) || (c =? 8233) || (c =? 8239) || (c =? 8287)
   || (c =? 12288))%N.

(** The line boundaries of [str.splitlines()]. *)
Definition islinebreak (c : N) : bool :=
  ((10 <=? c) && (c <=? 13) || (28 <=? c) && (c <=? 30)
   || (c =? 133) || (c =? 8232) || (c =? 8233))%N.

Fixpoint lstrip (s : pystr) : pystr :=
  match s with
  | [] => []
  | c :: s' => if isspace c then lstrip s' else s
  end.

Definition rstrip (s : pystr) : pystr := rev (lstrip (rev s)).

(** [s.strip()] *)
Definition strip (s : pystr) : pystr := rstrip (lstrip s).

(** [s.splitlines()]: the lines of [s] without their terminators; a
    carriage return followed by a line feed is one terminator and a
    terminator at the very end opens no further line. *)
Fixpoint splitlines (s : pystr) : list pystr :=
  match s with
  | [] => []
  | c :: s' =>
      if islinebreak c then
        match c, s' with
        | 13%N, 10%N :: s'' => [] :: splitlines s''
        | _, _ => [] :: splitlines s'
        end
      else
        match splitlines s' with
        | [] => [[c]]
        | l :: ls => (c :: l) :: ls
        end
  end.

(** [s.startswith(p)] *)
Fixpoint startswith (s p : pystr) {struct p} : bool :=
  match p, s with
  | [], _ => true
  | _ :: _, [] => false
  | a :: p', b :: s' => (a =? b)%N && startswith s' p'
  end.

(** [p in s] for two strings. *)
Fixpoint contains (s p : pystr) : bool :=
  startswith s p ||
  match s with
  | [] => false
  | _ :: s' => contains s' p
  end.

(** Truth value of a string: [not s] holds of the empty string only. *)
Definition truthy (s : pystr) : bool :=
  match s with [] => false | _ => true end.

Fixpoint digits_of_pos (fuel : nat) (n : Z) (acc : pystr) : pystr :=
  match fuel with
  | O => acc
  | S fuel' =>
      let acc' := (48 + Z.to_N (n mod 10))%N :: acc in
      if n <? 10 then acc' else digits_of_pos fuel' (n / 10) acc'
  end.

(** [str(n)] for an [int]. *)
Definition of_Z (n : Z) : pystr :=
  let a := Z.abs n in
  let ds := digits_of_pos (S (Z.to_nat (Z.log2 a))) a [] in
  if n <? 0 then 45%N :: ds else ds.

End Text.

Arguments Text.utf8 s%_string.
Definition txt (s : string) : pystr := Text.utf8 s.
Arguments txt s%_string.


(* ================================================================== *)
(** ** Exceptions and the error monad *)
(* ================================================================== *)

(** The exceptions that reach the [except] clauses of [run_test].
    [OtherException] stands for every class that is a subclass of
    [Exception] but of none of the three named ones ([TypeError],
    [OverflowError], [AttributeError], [OSError], ...); it carries the class
    name and [str(e)]. *)
Inductive exc : Type :=
| CalledProcessError (returncode : Z) (output stderr : pystr)
| TimeoutExpired
| ValueError (msg : pystr)
| OtherException (cls msg : pystr).

Inductive py (A : Type) : Type :=
| Ok (a : A)
| Raise (e : exc).

Arguments Ok {A} a.
Arguments Raise {A} e.

Definition bind {A B : Type} (m : py A) (k : A -> py B) : py B :=
  match m with
  | Ok a => k a
  | Raise e => Raise e
  end.

Notation "x <- m ;; k" := (bind m (fun x => k))
  (at level 61, m at next level, right associativity).

Definition TypeError (msg : pystr) : exc := OtherException (txt "TypeError") msg.
Definition OverflowError (msg : pystr) : exc :=
  OtherException (txt "OverflowError") msg.
Definition ZeroDivisionError (msg : pystr) : exc :=
  OtherException (txt "ZeroDivisionError") msg.
Definition AttributeError (msg : pystr) : exc :=
  OtherException (txt "AttributeError") msg.

(* ================================================================== *)
(** ** binary64 arithmetic *)
(* ================================================================== *)

Module Float.

(** Nearest integer to [a / b], ties to the even one ([0 <= a], [0 < b]). *)
Definition rhe (a b : Z) : Z :=
  let k := a / b in
  match 2 * (a mod b) ?= b with
  | Lt => k
  | Gt => k + 1
  | Eq => if Z.even k then k else k + 1
  end.

Definition digits2 (n : Z) : Z := if n =? 0 then 0 else Z.log2 n + 1.

(** The binary64 value nearest to [(-1)^s * p / q], ties to even, for
    [0 <= p] and [0 < q]: the quotient is taken in units of [2^-1074],
    cut to 53 bits, and becomes an infinity past the largest finite
    value.  This is the rounding of [float(text)], of [int / int] and of
    the conversion back to binary in [round]. *)
Definition nearest (s : bool) (p q : Z) : spec_float :=
  let n := (p * 2 ^ 1074) / q in
  let sh := Z.max 0 (digits2 n - 53) in
  let m := rhe (p * 2 ^ 1074) (q * 2 ^ sh) in
  let m' := if m =? 2 ^ 53 then 2 ^ 52 else m in
  let sh' := if m =? 2 ^ 53 then sh + 1 else sh in
  if m' =? 0 then S754_zero s
  else if 971 <? sh' - 1074 then S754_infinity s
  else S754_finite s (Z.to_pos m') (sh' - 1074).

(** Magnitude of a finite value as a fraction. *)
Definition mag_num (m : positive) (e : Z) : Z :=
  if 0 <=? e then Z.pos m * 2 ^ e else Z.pos m.
Definition mag_den (e : Z) : Z := if 0 <=? e then 1 else 2 ^ (- e).

(** The exact value of a number, for comparisons across [int] and
    [float]. *)
Inductive xreal : Type :=
| XNaN
| XInf (neg : bool)
| XFin (num den : Z).

Definition of_float (x : spec_float) : xreal :=
  match x with
  | S754_nan => XNaN
  | S754_infinity s => XInf s
  | S754_zero _ => XFin 0 1
  | S754_finite s m e =>
      XFin (if s then - mag_num m e else mag_num m e) (mag_den e)
  end.

Definition of_int (z : Z) : xreal := XFin z 1.

(** [a < b]; any comparison with a NaN is false. *)
Definition xlt (a b : xreal) : bool :=
  match a, b with
  | XNaN, _ | _, XNaN => false
  | XInf sa, XInf sb => sa && negb sb
  | XInf sa, XFin _ _ => sa
  | XFin _ _, XInf sb => negb sb
  | XFin n1 d1, XFin n2 d2 => n1 * d2 <? n2 * d1
  end.

Definition xeq (a b : xreal) : bool :=
  match a, b with
  | XNaN, _ | _, XNaN => false
  | XInf sa, XInf sb => Bool.eqb sa sb
  | XFin n1 d1, XFin n2 d2 => n1 * d2 =? n2 * d1
  | _, _ => false
  end.

Definition xle (a b : xreal) : bool := xlt a b || xeq a b.
Definition xgt (a b : xreal) : bool := xlt b a.

(** [float(z)] for an [int]. *)
Definition float_of_int (z : Z) : py spec_float :=
  match nearest (z <? 0) (Z.abs z) 1 with
  | S754_infinity _ =>
      Raise (OverflowError (txt "int too large to convert to float"))
  | f => Ok f
  end.

(** [a / b] for two [int]s: the correctly rounded quotient. *)
Definition int_truediv (a b : Z) : py spec_float :=
  if b =? 0 then Raise (ZeroDivisionError (txt "division by zero"))
  else
    match nearest (xorb (a <? 0) (b <? 0)) (Z.abs a) (Z.abs b) with
    | S754_infinity _ =>
        Raise (OverflowError
                 (txt "integer division result too large for a float"))
    | f => Ok f
    end.

(** [x / y] for two [float]s: IEEE 754 division, except that a zero
    divisor raises. *)
Definition float_truediv (x y : spec_float) : py spec_float :=
  match y with
  | S754_zero _ => Raise (ZeroDivisionError (txt "float division by zero"))
  | S754_nan => Ok S754_nan
  | S754_infinity sy =>
      match x with
      | S754_nan | S754_infinity _ => Ok S754_nan
      | S754_zero sx | S754_finite sx _ _ => Ok (S754_zero (xorb sx sy))
      end
  | S754_finite sy my ey =>
      match x with
      | S754_nan => Ok S754_nan
      | S754_infinity sx => Ok (S754_infinity (xorb sx sy))
      | S754_zero sx => Ok (S754_zero (xorb sx sy))
      | S754_finite sx mx ex =>
          Ok (nearest (xorb sx sy)
                (mag_num mx ex * mag_den ey) (mag_den ex * mag_num my ey))
      end
  end.

Definition NDIGITS_MAX : Z := 323.
Definition NDIGITS_MIN : Z := -308.

(** [double_round]: the decimal expansion of [x] rounded, ties to even,
    at [ndigits] places after the point, read back as a binary64. *)
Definition double_round (s : bool) (m : positive) (e : Z) (ndigits : Z)
  : py spec_float :=
  let r :=
    if 0 <=? ndigits
    then nearest s (rhe (mag_num m e * 10 ^ ndigits) (mag_den e))
                   (10 ^ ndigits)
    else nearest s (rhe (mag_num m e) (mag_den e * 10 ^ (- ndigits))
                    * 10 ^ (- ndigits)) 1 in
  match r with
  | S754_infinity _ =>
      Raise (OverflowError (txt "rounded value too large to represent"))
  | f => Ok f
  end.

(** [round(x, ndigits)] for a [float] and an explicit [ndigits]. *)
Definition round (x : spec_float) (ndigits : Z) : py spec_float :=
  match x with
  | S754_finite s m e =>
      if NDIGITS_MAX <? ndigits then Ok x
      else if ndigits <? NDIGITS_MIN then Ok (S754_zero s)
      else double_round s m e ndigits
  | _ => Ok x
  end.

(** ** [repr] *)

(** [a / b < 10 ^ d] *)
Definition below_pow10 (a b d : Z) : bool :=
  if 0 <=? d then a <? b * 10 ^ d else a * 10 ^ (- d) <? b.

(** The least [d] from [d0] on with [a / b < 10 ^ d]. *)
Fixpoint find_decpt (fuel : nat) (d a b : Z) : Z :=
  match fuel with
  | O => d
  | S fuel' => if below_pow10 a b d then d else find_decpt fuel' (d + 1) a b
  end.

Definition decpt_of (a b : Z) : Z := find_decpt 640 (-330) a b.

(** Does the decimal [c * 10 ^ x] read back as the magnitude [m * 2^e]? *)
Definition reads_back (m : positive) (e : Z) (c x : Z) : bool :=
  match (if 0 <=? x then nearest false (c * 10 ^ x) 1
         else nearest false c (10 ^ (- x))) with
  | S754_finite _ m' e' => (Z.pos m' =? Z.pos m) && (e' =? e)
  | _ => false
  end.

(** The shortest digit string that reads back as the value, and among
    those of that length the one nearest to it: [k] digits are tried for
    [k = 1, 2, ...]. *)
Fixpoint shortest (fuel : nat) (k : Z) (m : positive) (e : Z) (d : Z) : Z * Z :=
  let a := mag_num m e in
  let b := mag_den e in
  let num := if 0 <=? k - d then a * 10 ^ (k - d) else a in
  let den := if 0 <=? k - d then b else b * 10 ^ (d - k) in
  let lo := num / den in
  let hi := lo + 1 in
  let lo_first := 2 * (num mod den) <=? den in
  let c1 := if lo_first then lo else hi in
  let c2 := if lo_first then hi else lo in
  if reads_back m e c1 (d - k) then (c1, k)
  else if reads_back m e c2 (d - k) then (c2, k)
  else match fuel with
       | O => (c1, k)
       | S fuel' => shortest fuel' (k + 1) m e d
       end.

Fixpoint strip_zeros (fuel : nat) (c k : Z) : Z * Z :=
  match fuel with
  | O => (c, k)
  | S fuel' =>
      if (c mod 10 =? 0) && (1 <? k) then strip_zeros fuel' (c / 10) (k - 1)
      else (c, k)
  end.

Definition zeros (n : Z) : pystr := repeat 48%N (Z.to_nat n).

Definition two_digits (n : Z) : pystr :=
  if n <? 10 then 48%N :: Text.of_Z n else Text.of_Z n.

(** Layout of [repr]: the digits [ds] are read as [0.ds * 10 ^ d]; the
    exponent form is used when [d <= -4] or [d > 16], and a fixed-point
    number without fraction gets [.0]. *)
Definition layout (ds : pystr) (d : Z) : pystr :=
  let n := Z.of_nat (List.length ds) in
  if (d <=? -4) || (16 <? d) then
    let mant := match ds with
                | [] => []
                | c :: [] => [c]
                | c :: rest => c :: 46%N :: rest
                end in
    let x := d - 1 in
    mant ++ [101%N] ++ (if x <? 0 then [45%N] else [43%N])
         ++ two_digits (Z.abs x)
  else if d <=? 0 then txt "0." ++ zeros (- d) ++ ds
  else if n <=? d then ds ++ zeros (d - n) ++ txt ".0"
  else firstn (Z.to_nat d) ds ++ [46%N] ++ skipn (Z.to_nat d) ds.

(** [repr(x)], which is also [str(x)] and what an f-string inserts. *)
Definition repr (x : spec_float) : pystr :=
  match x with
  | S754_nan => txt "nan"
  | S754_infinity s => if s then txt "-inf" else txt "inf"
  | S754_zero s => if s then txt "-0.0" else txt "0.0"
  | S754_finite s m e =>
      let d := decpt_of (mag_num m e) (mag_den e) in
      let '(c, k) := shortest 16 1 m e d in
      (* a candidate [10 ^ k] is the digit 1 one decade up *)
      let d' := if c =? 10 ^ k then d + 1 else d in
      let '(c', _) := strip_zeros 17 (if c =? 10 ^ k then 1 else c) k in
      (if s then [45%N] else []) ++ layout (Text.of_Z c') d'
  end.

End Float.

(* ================================================================== *)
(** ** Python values *)
(* ================================================================== *)

(** What [json.loads] and [request.json] can return.  A [dict] keeps its
    keys in insertion order and holds each key once. *)
Inductive value : Type :=
| VNone
| VBool (b : bool)
| VInt (z : Z)
| VFloat (f : spec_float)
| VStr (s : pystr)
| VList (l : list value)
| VDict (d : list (pystr * value)).

Definition dict := list (pystr * value).

Definition str_eqb (a b : pystr) : bool :=
  if list_eq_dec N.eq_dec a b then true else false.

Module Dict.

(** [d.get(k)], [None] when the key is absent. *)
Fixpoint lookup (d : dict) (k : pystr) : option value :=
  match d with
  | [] => None
  | (k', v) :: d' => if str_eqb k k' then Some v else lookup d' k
  end.

(** [d.get(k, default)] *)
Definition get (d : dict) (k : pystr) (default : value) : value :=
  match lookup d k with
  | Some v => v
  | None => default
  end.

(** [d[k] = v]: a key already present keeps its place. *)
Fixpoint set (d : dict) (k : pystr) (v : value) : dict :=
  match d with
  | [] => [(k, v)]
  | (k', v') :: d' =>
      if str_eqb k k' then (k', v) :: d' else (k', v') :: set d' k v
  end.

End Dict.

(** [type(v).__name__] *)
Definition type_name (v : value) : pystr :=
  match v with
  | VNone => txt "NoneType"
  | VBool _ => txt "bool"
  | VInt _ => txt "int"
  | VFloat _ => txt "float"
  | VStr _ => txt "str"
  | VList _ => txt "list"
  | VDict _ => txt "dict"
  end.

(** The numbers of Python: [int] (with [bool], its subclass) and
    [float]. *)
Inductive num : Type :=
| NInt (z : Z)
| NFloat (f : spec_float).

Definition as_num (v : value) : option num :=
  match v with
  | VBool b => Some (NInt (Z.b2z b))
  | VInt z => Some (NInt z)
  | VFloat f => Some (NFloat f)
  | _ => None
  end.

Definition exact (n : num) : Float.xreal :=
  match n with
  | NInt z => Float.of_int z
  | NFloat f => Float.of_float f
  end.

Definition quote (s : pystr) : pystr := [39%N] ++ s ++ [39%N].

(** [a / b] where [b] is an [int] literal. *)
Definition truediv (a : value) (b : Z) : py spec_float :=
  match as_num a with
  | Some (NInt z) => Float.int_truediv z b
  | Some (NFloat x) => y <- Float.float_of_int b ;; Float.float_truediv x y
  | None =>
      Raise (TypeError (txt "unsupported operand type(s) for /: "
                          ++ quote (type_name a) ++ txt " and 'int'"))
  end.

(** [a <= y] where [y] is a [float] literal: numbers are compared by their
    exact values. *)
Definition le_float (a : value) (y : spec_float) : py bool :=
  match as_num a with
  | Some n => Ok (Float.xle (exact n) (Float.of_float y))
  | None =>
      Raise (TypeError (txt "'<=' not supported between instances of "
                          ++ quote (type_name a) ++ txt " and 'float'"))
  end.

(** [a > b] where [b] is an [int] literal. *)
Definition gt_int (a : value) (b : Z) : py bool :=
  match as_num a with
  | Some n => Ok (Float.xgt (exact n) (Float.of_int b))
  | None =>
      Raise (TypeError (txt "'>' not supported between instances of "
                          ++ quote (type_name a) ++ txt " and 'int'"))
  end.

(** [round(a, ndigits)]: an [int] (or [bool]) gives an [int], a [float]
    gives a [float]. *)
Definition round (a : value) (ndigits : Z) : py num :=
  match as_num a with
  | Some (NInt z) =>
      if 0 <=? ndigits then Ok (NInt z)
      else let p := 10 ^ (- ndigits) in
           Ok (NInt (Z.sgn z * Float.rhe (Z.abs z) p * p))
  | Some (NFloat x) => r <- Float.round x ndigits ;; Ok (NFloat r)
  | None =>
      Raise (TypeError (txt "type " ++ type_name a
                          ++ txt " doesn't define __round__ method"))
  end.

(** [str(n)], the text an f-string inserts for a number. *)
Definition str_num (n : num) : pystr :=
  match n with
  | NInt z => Text.of_Z z
  | NFloat f => Float.repr f
  end.

(** The [float] literal [0.0]. *)
Definition zero_float : spec_float := S754_zero false.

(* ================================================================== *)
(** ** [json.loads] *)
(* ================================================================== *)

(** The decoder of the [json] module with its default settings (strict
    strings, [NaN], [Infinity] and [-Infinity] accepted, integers kept as
    [int]).  A scanner takes the text from its current position on and
    gives the decoded value with the text left, or nothing where the module
    raises [JSONDecodeError].  The interpreter's limits on nesting depth and
    on the number of digits of an integer are not part of the model. *)
Module Json.

Definition is_ws (c : N) : bool :=
  ((c =? 32) || (c =? 9) || (c =? 10) || (c =? 13))%N.

Fixpoint skip_ws (s : pystr) : pystr :=
  match s with
  | c :: s' => if is_ws c then skip_ws s' else s
  | [] => []
  end.

Definition is_digit (c : N) : bool := ((48 <=? c) && (c <=? 57))%N.

Definition hex_digit (c : N) : option N :=
  if is_digit c then Some (c - 48)%N
  else if ((97 <=? c) && (c <=? 102))%N then Some (c - 87)%N
  else if ((65 <=? c) && (c <=? 70))%N then Some (c - 55)%N
  else None.

(** Four hexadecimal digits. *)
Definition hex4 (s : pystr) : option (N * pystr) :=
  match s with
  | a :: b :: c :: d :: s' =>
      match hex_digit a, hex_digit b, hex_digit c, hex_digit d with
      | Some x, Some y, Some z, Some w =>
          Some ((x * 4096 + y * 256 + z * 16 + w)%N, s')
      | _, _, _, _ => None
      end
  | _ => None
  end.

Definition is_high_surrogate (c : N) : bool :=
  ((55296 <=? c) && (c <=? 56319))%N.
Definition is_low_surrogate (c : N) : bool :=
  ((56320 <=? c) && (c <=? 57343))%N.
Definition join_surrogates (c c2 : N) : N :=
  (65536 + (c mod 1024) * 1024 + c2 mod 1024)%N.

(** [scanstring]: the text after an opening quote, up to the closing
    one. *)
Fixpoint scanstring (fuel : nat) (s : pystr) (acc : pystr)
  : option (pystr * pystr) :=
  match fuel with
  | O => None
  | S fuel' =>
      match s with
      | [] => None                                   (* unterminated *)
      | 34%N :: s' => Some (rev acc, s')
      | 92%N :: [] => None
      | 92%N :: 117%N :: s' =>                       (* \uXXXX *)
          match hex4 s' with
          | None => None
          | Some (c, s1) =>
              match s1 with
              | 92%N :: 117%N :: a :: b :: d :: e :: s2 =>
                  if is_high_surrogate c then
                    match hex4 (a :: b :: d :: e :: s2) with
                    | None => None
                    | Some (c2, s3) =>
                        if is_low_surrogate c2
                        then scanstring fuel' s3 (join_surrogates c c2 :: acc)
                        else scanstring fuel' s1 (c :: acc)
                    end
                  else scanstring fuel' s1 (c :: acc)
              | _ => scanstring fuel' s1 (c :: acc)
              end
          end
      | 92%N :: e :: s' =>
          match e with
          | 34%N | 92%N | 47%N => scanstring fuel' s' (e :: acc)
          | 98%N => scanstring fuel' s' (8%N :: acc)
          | 102%N => scanstring fuel' s' (12%N :: acc)
          | 110%N => scanstring fuel' s' (10%N :: acc)
          | 114%N => scanstring fuel' s' (13%N :: acc)
          | 116%N => scanstring fuel' s' (9%N :: acc)
          | _ => None                                (* invalid escape *)
          end
      | c :: s' =>
          if (c <=? 31)%N then None                  (* control character *)
          else scanstring fuel' s' (c :: acc)
      end
  end.

(** The longest run of decimal digits at the head of the text. *)
Fixpoint span_digits (s : pystr) : pystr * pystr :=
  match s with
  | c :: s' =>
      if is_digit c
      then let '(ds, rest) := span_digits s' in (c :: ds, rest)
      else ([], s)
  | [] => ([], [])
  end.

Definition digits_value (ds : pystr) : Z :=
  fold_left (fun acc c => acc * 10 + Z.of_N (c - 48)) ds 0.

(** [float(text)] for sign, integer digits, fraction digits and decimal
    exponent. *)
Definition float_of_parts (neg : bool) (int_ds frac_ds : pystr) (exp : Z)
  : spec_float :=
  let n := digits_value (int_ds ++ frac_ds) in
  let x := exp - Z.of_nat (List.length frac_ds) in
  if 0 <=? x then Float.nearest neg (n * 10 ^ x) 1
  else Float.nearest neg n (10 ^ (- x)).

(** The number at the head of the text: an optional minus sign, [0] or a
    run of digits that does not start with [0], then a fraction and an
    exponent where they are complete. *)
Definition match_number (s : pystr) : option (value * pystr) :=
  let neg := match s with 45%N :: _ => true | _ => false end in
  let s0 := match s with 45%N :: s' => s' | _ => s end in
  let int_part :=
    match s0 with
    | 48%N :: s1 => Some ([48%N], s1)
    | c :: _ => if is_digit c then Some (span_digits s0) else None
    | [] => None
    end in
  match int_part with
  | None => None
  | Some (int_ds, s1) =>
      let '(frac_ds, s2) :=
        match s1 with
        | 46%N :: c :: _ =>
            if is_digit c then span_digits (tl s1) else ([], s1)
        | _ => ([], s1)
        end in
      let after_e := match s2 with
                     | 101%N :: s3 | 69%N :: s3 => Some s3
                     | _ => None
                     end in
      let exp_part :=
        match after_e with
        | None => None
        | Some s3 =>
            let eneg := match s3 with 45%N :: _ => true | _ => false end in
            let s4 := match s3 with
                      | 45%N :: s' | 43%N :: s' => s'
                      | _ => s3
                      end in
            match span_digits s4 with
            | ([], _) => None
            | (eds, s5) =>
                Some ((if eneg then - digits_value eds else digits_value eds),
                      s5)
            end
        end in
      match frac_ds, exp_part with
      | [], None =>
          let n := digits_value int_ds in
          Some (VInt (if neg then - n else n), s2)
      | _, None => Some (VFloat (float_of_parts neg int_ds frac_ds 0), s2)
      | _, Some (x, s5) =>
          Some (VFloat (float_of_parts neg int_ds frac_ds x), s5)
      end
  end.

(** [s] without the prefix [p], when it starts with it. *)
Fixpoint after (p s : pystr) : option pystr :=
  match p, s with
  | [], _ => Some s
  | a :: p', b :: s' => if (a =? b)%N then after p' s' else None
  | _ :: _, [] => None
  end.

(** [scan_once] with the loops of [_parse_object] and [_parse_array];
    [fuel] bounds the depth of the calls. *)
Fixpoint scan_once (fuel : nat) (s : pystr) : option (value * pystr) :=
  match fuel with
  | O => None
  | S fuel' =>
      match s with
      | [] => None
      | 34%N :: s' =>
          match scanstring (S (List.length s')) s' [] with
          | Some (str, rest) => Some (VStr str, rest)
          | None => None
          end
      | 123%N :: s' =>
          match skip_ws s' with
          | 125%N :: rest => Some (VDict [], rest)
          | s1 => object_loop fuel' s1 []
          end
      | 91%N :: s' =>
          match skip_ws s' with
          | 93%N :: rest => Some (VList [], rest)
          | s1 => array_loop fuel' s1 []
          end
      | _ =>
          match after (txt "null") s, after (txt "true") s,
                after (txt "false") s, after (txt "NaN") s,
                after (txt "Infinity") s, after (txt "-Infinity") s with
          | Some rest, _, _, _, _, _ => Some (VNone, rest)
          | _, Some rest, _, _, _, _ => Some (VBool true, rest)
          | _, _, Some rest, _, _, _ => Some (VBool false, rest)
          | _, _, _, Some rest, _, _ => Some (VFloat S754_nan, rest)
          | _, _, _, _, Some rest, _ =>
              Some (VFloat (S754_infinity false), rest)
          | _, _, _, _, _, Some rest =>
              Some (VFloat (S754_infinity true), rest)
          | _, _, _, _, _, _ => match_number s
          end
      end
  end

(** One turn of the object loop starts at a key. *)
with object_loop (fuel : nat) (s : pystr) (acc : dict)
  : option (value * pystr) :=
  match fuel with
  | O => None
  | S fuel' =>
      match s with
      | 34%N :: s' =>
          match scanstring (S (List.length s')) s' [] with
          | None => None
          | Some (key, s1) =>
              match skip_ws s1 with
              | 58%N :: s2 =>
                  match scan_once fuel' (skip_ws s2) with
                  | None => None
                  | Some (v, s3) =>
                      let acc' := Dict.set acc key v in
                      match skip_ws s3 with
                      | 125%N :: rest => Some (VDict acc', rest)
                      | 44%N :: s4 => object_loop fuel' (skip_ws s4) acc'
                      | _ => None
                      end
                  end
              | _ => None
              end
          end
      | _ => None
      end
  end

(** One turn of the array loop starts at a value. *)
with array_loop (fuel : nat) (s : pystr) (acc : list value)
  : option (value * pystr) :=
  match fuel with
  | O => None
  | S fuel' =>
      match scan_once fuel' s with
      | None => None
      | Some (v, s1) =>
          match skip_ws s1 with
          | 93%N :: rest => Some (VList (rev (v :: acc)), rest)
          | 44%N :: s2 => array_loop fuel' (skip_ws s2) (v :: acc)
          | _ => None
          end
      end
  end.

(** [json.loads(s)]: one value, white space around it, nothing else. *)
Definition loads (s : pystr) : option value :=
  match s with
  | 65279%N :: _ => None                       (* a byte order mark *)
  | _ =>
      match scan_once (2 * List.length s + 2) (skip_ws s) with
      | Some (v, rest) =>
          match skip_ws rest with
          | [] => Some v
          | _ => None                          (* extra data *)
          end
      | None => None
      end
  end.

End Json.

(* ================================================================== *)
(** ** The world around the handler *)
(* ================================================================== *)

(** [subprocess.CompletedProcess], with [capture_output=True] and
    [text=True]. *)
Record CompletedProcess : Type := {
  returncode : Z;
  stdout : pystr;
  stderr : pystr
}.

(** What the measurement command does when it is started: the start itself
    fails (no such program), it exits on its own after some seconds, or it
    never exits.  What it has written by then is part of the behaviour. *)
Inductive Child : Type :=
| NotStarted (e : exc)
| Exits (seconds : Q) (result : CompletedProcess)
| Hangs (written_out written_err : pystr).

(** What has become of the child when [subprocess.run] is left. *)
Inductive ChildState : Type :=
| NotSpawned
| Exited
| Killed.

(** [subprocess.run(command, capture_output=True, text=True, check=False,
    timeout=t)]: a child still running after [t] seconds is killed and
    [TimeoutExpired] is raised. *)
Definition subprocess_run (timeout : Q) (c : Child)
  : py CompletedProcess * ChildState :=
  match c with
  | NotStarted e => (Raise e, NotSpawned)
  | Exits seconds result =>
      if Qle_bool seconds timeout then (Ok result, Exited)
      else (Raise TimeoutExpired, Killed)
  | Hangs _ _ => (Raise TimeoutExpired, Killed)
  end.

(** The values the prompt interpolates into its fixed text; the text
    generator sees the prompt only. *)
Record Prompt : Type := {
  prompt_download : pystr;
  prompt_upload : pystr;
  prompt_ping : pystr;
  prompt_context : value
}.

(** One request and its surroundings: the decoded body ([request.json]
    raises where there is none), the measurement command, the text
    generator behind [ai.models.generate_content], and the text of a
    [JSONDecodeError] for a line that does not decode. *)
Record World : Type := {
  request_json : py value;
  speedtest : Child;
  generate_content : Prompt -> py pystr;
  decode_error : pystr -> pystr
}.

(** [test_data] *)
Record TestData : Type := {
  download : pystr;
  upload : pystr;
  ping : pystr;
  context : value
}.

(** The body of the response handed to [jsonify]. *)
Inductive Body : Type :=
| Success (data : TestData) (analysis : pystr)
| Failure (message : pystr).

Record Response : Type := {
  status : Z;
  body : Body
}.

(* ================================================================== *)
(** ** [run_test] *)
(* ================================================================== *)

(** The default of [data.get('context', ...)]. *)
Definition default_context : pystr := txt "Jeg surfer bare på nettet.".

(** [user_context = data.get('context', 'Jeg surfer bare på nettet.')] *)
Definition user_context (data : value) : py value :=
  match data with
  | VDict d => Ok (Dict.get d (txt "context") (VStr default_context))
  | _ =>
      Raise (AttributeError (quote (type_name data)
                               ++ txt " object has no attribute 'get'"))
  end.

(** The loop over [reversed(stdout_lines)]: the first stripped line that
    starts with a brace, the empty string when there is none. *)
Fixpoint last_json_line (reversed_lines : list pystr) : pystr :=
  match reversed_lines with
  | [] => []
  | line :: rest =>
      let line := Text.strip line in
      if Text.startswith line (txt "{") then line else last_json_line rest
  end.

Definition stdout_lines (process : CompletedProcess) : list pystr :=
  Text.splitlines (Text.strip (stdout process)).

(** Lines 70 to 81: [json_output], or the [ValueError] raised when no line
    was found. *)
Definition json_output (process : CompletedProcess) : py pystr :=
  let json_output := last_json_line (rev (stdout_lines process)) in
  if negb (Text.truthy json_output) then
    Raise (ValueError
             (txt "Klarte ikke å finne JSON-utdata fra Speedtest. Full utdata (STDOUT): "
                ++ Text.strip (stdout process) ++ txt ". STDERR: "
                ++ Text.strip (stderr process)))
  else Ok json_output.

(** Lines 83 to 87: [test_data_raw]. *)
Definition test_data_raw (decode_error : pystr -> pystr) (json_output : pystr)
  : py value :=
  match Json.loads json_output with
  | Some v => Ok v
  | None =>
      Raise (ValueError (txt "Feil ved dekoding av JSON: "
                           ++ decode_error json_output
                           ++ txt ". Mottatt: " ++ json_output))
  end.

(** Lines 91 to 93: the three raw fields. *)
Record RawMetrics : Type := {
  raw_download_bits : value;
  raw_upload_bits : value;
  raw_ping_ms : value
}.

Definition raw_metrics (test_data_raw : value) : py RawMetrics :=
  match test_data_raw with
  | VDict d =>
      Ok {| raw_download_bits := Dict.get d (txt "download") (VFloat zero_float);
            raw_upload_bits := Dict.get d (txt "upload") (VFloat zero_float);
            raw_ping_ms := Dict.get d (txt "ping") (VFloat zero_float) |}
  | _ =>
      Raise (AttributeError (quote (type_name test_data_raw)
                               ++ txt " object has no attribute 'get'"))
  end.

(** [f"{round(bits / 1000000, 2)} Mbit/s"] *)
Definition mbit (bits : value) : py pystr :=
  q <- truediv bits 1000000 ;;
  r <- Float.round q 2 ;;
  Ok (Float.repr r ++ txt " Mbit/s").

(** Line 96. *)
Definition format_upload (raw_upload_bits : value) : py pystr :=
  mbit raw_upload_bits.

(** Lines 99 to 102. *)
Definition format_download (raw_download_bits : value) : py pystr :=
  c <- le_float raw_download_bits zero_float ;;
  if c then Ok (txt "Utilgjengelig") else mbit raw_download_bits.

(** Lines 105 to 108; [or] does not evaluate its right operand when the
    left one is true. *)
Definition format_ping (raw_ping_ms : value) : py pystr :=
  too_high <- gt_int raw_ping_ms 10000 ;;
  c <- (if too_high then Ok true else le_float raw_ping_ms zero_float) ;;
  if c then Ok (txt "Feil/For høy")
  else r <- round raw_ping_ms 0 ;; Ok (str_num r ++ txt " ms").

(** Lines 91 to 116, in the order of the source: upload first. *)
Definition normalize (raw : RawMetrics) (user_context : value) : py TestData :=
  upload <- format_upload (raw_upload_bits raw) ;;
  download <- format_download (raw_download_bits raw) ;;
  ping <- format_ping (raw_ping_ms raw) ;;
  Ok {| download := download; upload := upload; ping := ping;
        context := user_context |}.

Definition prompt (test_data : TestData) : Prompt :=
  {| prompt_download := download test_data;
     prompt_upload := upload test_data;
     prompt_ping := ping test_data;
     prompt_context := context test_data |}.

(** Lines 63 to 150, from the finished process on. *)
Definition after_process (w : World) (user_context : value)
  (process : CompletedProcess) : py Response :=
  if negb (returncode process =? 0) then
    Raise (CalledProcessError (returncode process) (stdout process)
             (stderr process))
  else
    json_output <- json_output process ;;
    test_data_raw <- test_data_raw (decode_error w) json_output ;;
    raw <- raw_metrics test_data_raw ;;
    test_data <- normalize raw user_context ;;
    gemini_report <- generate_content w (prompt test_data) ;;
    Ok {| status := 200; body := Success test_data gemini_report |}.

(** The four [except] clauses, tried in the order of the source. *)
Definition handle (e : exc) : Response :=
  match e with
  | CalledProcessError returncode output stderr =>
      let error_msg :=
        txt "Feil ved kjøring av Speedtest. Returkode: "
          ++ Text.of_Z returncode ++ txt ". STDOUT: " ++ Text.strip output
          ++ txt ". STDERR: " ++ Text.strip stderr in
      {| status := 500;
         body := Failure (txt "Kritisk Speedtest-feil. Sjekk installasjonen. "
                            ++ error_msg) |}
  | TimeoutExpired =>
      {| status := 500;
         body := Failure (txt "Feil: Hastighetstesten fullførte ikke innen 30 sekunder. Prøv igjen.") |}
  | ValueError msg =>
      {| status := 500;
         body := Failure (txt "Serverfeil ved behandling av Speedtest-resultater: "
                            ++ msg) |}
  | OtherException _ msg =>
      {| status := 500;
         body := Failure (txt "En uforutsett feil oppstod på serveren: " ++ msg) |}
  end.

(** The [try] block: the response or the exception, and the state of the
    child. *)
Definition try_block (w : World) : py Response * ChildState :=
  match request_json w with
  | Raise e => (Raise e, NotSpawned)
  | Ok data =>
      match user_context data with
      | Raise e => (Raise e, NotSpawned)
      | Ok user_context =>
          let '(process, child) := subprocess_run 30 (speedtest w) in
          (process <- process ;; after_process w user_context process, child)
      end
  end.

(** [run_test]: every exception becomes a failure response. *)
Definition run_test (w : World) : Response * ChildState :=
  let '(r, child) := try_block w in
  (match r with
   | Ok response => response
   | Raise e => handle e
   end, child).

(** The [except] clause that answers an exception. *)
Inductive Clause : Type :=
| ExceptCalledProcessError
| ExceptTimeoutExpired
| ExceptValueError
| ExceptException.

Definition clause_of (e : exc) : Clause :=
  match e with
  | CalledProcessError _ _ _ => ExceptCalledProcessError
  | TimeoutExpired => ExceptTimeoutExpired
  | ValueError _ => ExceptValueError
  | OtherException _ _ => ExceptException
  end.

(** The lines that the loop of [run_test] can stop at: the stripped lines
    that start with a brace, in the order of the text. *)
Definition is_json_line (line : pystr) : bool :=
  Text.startswith (Text.strip line) (txt "{").

Definition candidates (lines : list pystr) : list pystr :=
  map Text.strip (filter is_json_line lines).

(** ** Notions used in the statements *)

Definition space (w : pystr) : Prop :=
  Forall (fun c => Text.isspace c = true) w.

(** Putting a character that ends no line in front of a text puts it in
    front of the first line. *)
Definition prepend (a : N) (ls : list pystr) : list pystr :=
  match ls with
  | [] => [[a]]
  | l :: ls' => (a :: l) :: ls'
  end.

(** How the lines change when white space is added at the end: nothing
    changes, or a blank line is added, or the last line gets longer by
    white space. *)
Inductive grown : list pystr -> list pystr -> Prop :=
| grown_same ls : grown ls ls
| grown_line ls w : space w -> grown ls (ls ++ [w])
| grown_last init l w : space w -> grown (init ++ [l]) (init ++ [l ++ w]).

(** The request is read, the child is started and [subprocess.run] returns
    the finished process. *)
Definition completes (w : World) (user_ctx : value)
  (process : CompletedProcess) : Prop :=
  exists data,
    request_json w = Ok data
    /\ user_context data = Ok user_ctx
    /\ subprocess_run 30 (speedtest w) = (Ok process, Exited).

(** The child is started and has not exited after [t] seconds. *)
Definition running_after (t : Q) (c : Child) : bool :=
  match c with
  | NotStarted _ => false
  | Exits seconds _ => negb (Qle_bool seconds t)
  | Hangs _ _ => true
  end.

(** The text of a failure response. *)
Definition message (r : Response) : pystr :=
  match body r with
  | Failure m => m
  | Success _ _ => []
  end.

Definition is_success (r : Response) : bool :=
  match body r with
  | Success _ _ => true
  | Failure _ => false
  end.

(** The metrics of a success response. *)
Definition metrics (r : Response) : option (pystr * pystr * pystr) :=
  match body r with
  | Success d _ => Some (download d, upload d, ping d)
  | Failure _ => None
  end.

Ltac inv H := inversion H; subst; clear H.

(** The fixed texts are never looked into. *)
Ltac hide_texts :=
  repeat match goal with
         | |- context [txt ?s] =>
             let t := fresh "t" in generalize (txt s); intro t
         end.

Ltac bind_cases H :=
  repeat match type of H with
         | bind ?m _ = _ =>
             let E := fresh "E" in
             destruct m eqn:E; cbn [bind] in H; [|discriminate H]
         end.

(** Worlds of the scenarios: a request without a context, a command that
    exits after five seconds, a generator that answers. *)
Definition quiet_world (c : Child) : World :=
  {| request_json := Ok (VDict []);
     speedtest := c;
     generate_content := fun _ => Ok (txt "<p>ok</p>");
     decode_error := fun _ => txt "Expecting value" |}.

Definition finished (code : Z) (out err : pystr) : CompletedProcess :=
  {| returncode := code; stdout := out; stderr := err |}.

(** A single quote stands for a double quote in the texts below. *)
Definition dq (s : pystr) : pystr :=
  map (fun c => if (c =? 39)%N then 34%N else c) s.

(** A new line. *)
Definition nl : pystr := [10%N].

(** The largest magnitude that does not round to an infinity is below
    [2^1024 - 2^970]. *)
Definition fits (p q : Z) : Prop := 2 * p < q * (2 ^ 1025 - 2 ^ 971).

Definition is_infinity (f : spec_float) : bool :=
  match f with
  | S754_infinity _ => true
  | _ => false
  end.

(** The exponent shift and the rounded mantissa of [nearest]. *)
Definition shift_of (p q : Z) : Z :=
  Z.max 0 (Float.digits2 (p * 2 ^ 1074 / q) - 53).

Definition mantissa_of (p q : Z) : Z :=
  Float.rhe (p * 2 ^ 1074) (q * 2 ^ shift_of p q).

(** A value of the format: at most 53 bits, exponent at most 971. *)
Definition bounded (x : spec_float) : Prop :=
  match x with
  | S754_finite _ m e => Z.pos m < 2 ^ 53 /\ e <= 971
  | _ => True
  end.

(** The largest finite value, [(2^53 - 1) * 2^971]. *)
Definition max_float : Z := (2 ^ 53 - 1) * 2 ^ 971.

(** The integers whose quotient by a million is within the format. *)
Definition int_in_range (z : Z) : Prop := fits (Z.abs z) 1000000.

(** The raw values for which the division by a million has a value. *)
Definition in_range (n : num) : Prop :=
  match n with
  | NInt z => int_in_range z
  | NFloat _ => True
  end.

(** The guard of the ping: [raw_ping_ms > 10000 or raw_ping_ms <= 0.0]. *)
Definition ping_rejected (n : num) : bool :=
  Float.xgt (exact n) (Float.of_int 10000)
  || Float.xle (exact n) (Float.of_float zero_float).


(** Only [TypeError], [OverflowError] and [ZeroDivisionError] leave the
    formatting of the metrics. *)
Definition other (e : exc) : Prop := clause_of e = ExceptException.

(** ** Inputs of the scenarios and notions of the claims *)

(** Two brace lines with noise around them: the second one is taken. *)
Definition two_brace_lines : pystr :=
  txt "{first}" ++ nl ++ txt "noise" ++ nl ++ txt "  {second}  " ++ nl
      ++ txt "Done." ++ nl.

(** The text of the [ValueError] raised when no line was found. *)
Definition no_json_message (process : CompletedProcess) : pystr :=
  txt "Klarte ikke å finne JSON-utdata fra Speedtest. Full utdata (STDOUT): "
    ++ Text.strip (stdout process) ++ txt ". STDERR: "
    ++ Text.strip (stderr process).

Definition no_json_process : CompletedProcess :=
  finished 0 (txt "Testing..." ++ nl) (txt "warning" ++ nl).

Definition no_json_world : World := quiet_world (Exits 5 no_json_process).

(** The text of the failure response for a command that exits with a
    non-zero status. *)
Definition process_error_message (process : CompletedProcess) : pystr :=
  txt "Kritisk Speedtest-feil. Sjekk installasjonen. "
    ++ (txt "Feil ved kjøring av Speedtest. Returkode: "
          ++ Text.of_Z (returncode process) ++ txt ". STDOUT: "
          ++ Text.strip (stdout process)
          ++ txt ". STDERR: " ++ Text.strip (stderr process)).

Definition failed_process : CompletedProcess :=
  finished 1 (txt "Retrieving speedtest.net configuration..." ++ nl)
             (txt "ERROR: Unable to connect" ++ nl).

Definition failed_world : World := quiet_world (Exits 2 failed_process).

(** The text of the failure response after a timeout. *)
Definition timeout_message : pystr :=
  txt "Feil: Hastighetstesten fullførte ikke innen 30 sekunder. Prøv igjen.".

(** A child that has written a complete result but never exits. *)
Definition hanging_world : World :=
  quiet_world
    (Hangs (dq (txt "{'download': 50000000, 'upload': 10000000, 'ping': 20.3}")
              ++ nl) []).

(** The context the handler works with, for a request body that is an
    object. *)
Definition context_used (d : dict) : value :=
  match Dict.lookup d (txt "context") with
  | Some v => v
  | None => VStr default_context
  end.

(** A request whose context is the empty string. *)
Definition empty_context_body : dict := [(txt "context", VStr [])].

Definition empty_context_world : World :=
  {| request_json := Ok (VDict empty_context_body);
     speedtest :=
       Exits 5 (finished 0
                  (dq (txt "{'download': 50000000, 'upload': 10000000, 'ping': 20}")
                     ++ nl) []);
     generate_content := fun p => Ok (txt "<p>ok</p>");
     decode_error := fun _ => txt "Expecting value" |}.

(** The two fixed texts that stand for a value out of range. *)
Definition download_sentinel : pystr := txt "Utilgjengelig".
Definition ping_sentinel : pystr := txt "Feil/For høy".

Definition numeric_raw (d u p : value) : RawMetrics :=
  {| raw_download_bits := d; raw_upload_bits := u; raw_ping_ms := p |}.

Definition ping_15000 : RawMetrics :=
  numeric_raw (VInt 50000000) (VInt 10000000) (VInt 15000).





Definition scenario_line : pystr :=
  dq (txt "{'download': 50000000, 'upload': 10000000, 'ping': 20.3}").

Definition scenario_stdout : pystr := txt "Testing..." ++ nl ++ scenario_line ++ nl.

Definition scenario_process (err : pystr) : CompletedProcess :=
  finished 0 scenario_stdout err.

Definition scenario_raw : RawMetrics :=
  numeric_raw (VInt 50000000) (VInt 10000000)
    (VFloat (S754_finite false 5713942027226317 (-48))).

Definition scenario_metrics (ctx : value) : TestData :=
  {| download := txt "50.0 Mbit/s";
     upload := txt "10.0 Mbit/s";
     ping := txt "20.0 ms";
     context := ctx |}.

Definition scenario_world : World :=
  quiet_world (Exits 5 (scenario_process [])).

(** The text of the failure response of the last [except] clause. *)
Definition unknown_error_message (msg : pystr) : pystr :=
  txt "En uforutsett feil oppstod på serveren: " ++ msg.

(** A download that is a string and a ping that is null. *)
Definition text_field_line : pystr :=
  dq (txt "{'download': 'fast', 'upload': 10000000, 'ping': null}").

Definition text_field_dict : dict :=
  [(txt "download", VStr (txt "fast"));
   (txt "upload", VInt 10000000);
   (txt "ping", VNone)].

Definition text_field_process : CompletedProcess :=
  finished 0 (txt "Testing..." ++ nl ++ text_field_line ++ nl) [].

Definition text_field_world : World :=
  quiet_world (Exits 5 text_field_process).

(** ** Notions and inputs of the further properties *)


(** The measurement ran and its output went through extraction, decoding
    and normalization, with [td] as the result. *)
Definition measured (w : World) (td : TestData) : Prop :=
  exists user_ctx process line d raw,
    completes w user_ctx process
    /\ returncode process = 0
    /\ json_output process = Ok line
    /\ Json.loads line = Some (VDict d)
    /\ raw_metrics (VDict d) = Ok raw
    /\ normalize raw user_ctx = Ok td.

(** The text of the [AttributeError] for a value without [get]. *)
Definition no_get_message (v : value) : pystr :=
  quote (type_name v) ++ txt " object has no attribute 'get'".

Definition is_dict (v : value) : bool :=
  match v with
  | VDict _ => true
  | _ => false
  end.



(** A request whose body is the JSON value null. *)
Definition null_body_world : World :=
  {| request_json := Ok VNone;
     speedtest := Exits 5 (finished 0 [] []);
     generate_content := fun _ => Ok [];
     decode_error := fun _ => [] |}.

(** A generator that refuses with a [ValueError]. *)
Definition refusing_world : World :=
  {| request_json := Ok (VDict []);
     speedtest := Exits 5 (scenario_process []);
     generate_content := fun _ => Raise (ValueError (txt "Missing key inputs argument!"));
     decode_error := fun _ => [] |}.

(** The integer nearest to the value of a finite float, ties to even. *)
Definition nearest_integer (m : positive) (e : Z) : Z :=
  Float.rhe (Float.mag_num m e) (Float.mag_den e).

(* ================================================================== *)
(** * Properties *)
(* ================================================================== *)

(** ** Text *)

Section TextFacts.

Lemma startswith_refl_app (p s : pystr) : Text.startswith (p ++ s) p = true.
Proof.
  induction p as [|a p IH]; simpl; [reflexivity|].
  now rewrite N.eqb_refl, IH.
Qed.

Lemma contains_unfold (s p : pystr) :
  Text.contains s p
  = Text.startswith s p
    || match s with [] => false | _ :: s' => Text.contains s' p end.
Proof. destruct s; reflexivity. Qed.

Lemma contains_app_r (a p b : pystr) : Text.contains (a ++ p ++ b) p = true.
Proof.
  induction a as [|x a IH].
  - simpl app. rewrite contains_unfold, startswith_refl_app. reflexivity.
  - simpl app. rewrite contains_unfold, IH. apply orb_true_r.
Qed.

Lemma contains_suffix (a p : pystr) : Text.contains (a ++ p) p = true.
Proof.
  rewrite <- (app_nil_r p) at 1. apply contains_app_r.
Qed.

Lemma contains_prefix (p b : pystr) : Text.contains (p ++ b) p = true.
Proof. apply (contains_app_r [] p b). Qed.

Lemma contains_refl (p : pystr) : Text.contains p p = true.
Proof. apply (contains_suffix [] p). Qed.

Lemma contains_skip (a s p : pystr) :
  Text.contains s p = true -> Text.contains (a ++ s) p = true.
Proof.
  intros H. induction a as [|x a IH]; [exact H|].
  simpl app. rewrite contains_unfold, IH. apply orb_true_r.
Qed.

Lemma lstrip_space (c : N) (s : pystr) :
  Text.isspace c = true -> Text.lstrip (c :: s) = Text.lstrip s.
Proof. intros H. simpl. now rewrite H. Qed.

Lemma lstrip_idem (s : pystr) : Text.lstrip (Text.lstrip s) = Text.lstrip s.
Proof.
  induction s as [|c s IH]; simpl; [reflexivity|].
  destruct (Text.isspace c) eqn:E; [exact IH|].
  simpl. now rewrite E.
Qed.

(** Stripping on the left only removes a prefix, so what stays at the
    right end is stripped the same way. *)
Lemma lstrip_app_nonspace (s t : pystr) :
  Text.lstrip s <> [] -> Text.lstrip (s ++ t) = Text.lstrip s ++ t.
Proof.
  induction s as [|c s IH]; simpl; [congruence|].
  destruct (Text.isspace c); [exact IH | reflexivity].
Qed.

Lemma lstrip_all_space (s : pystr) :
  Forall (fun c => Text.isspace c = true) s -> Text.lstrip s = [].
Proof.
  induction 1 as [|c s H _ IH]; simpl; [reflexivity|]. now rewrite H.
Qed.

Lemma lstrip_app_space (s t : pystr) :
  Text.lstrip s = [] -> Text.lstrip (s ++ t) = Text.lstrip t.
Proof.
  induction s as [|c s IH]; simpl; [reflexivity|].
  destruct (Text.isspace c); [exact IH | discriminate].
Qed.

Lemma linebreak_is_space (c : N) :
  Text.islinebreak c = true -> Text.isspace c = true.
Proof.
  unfold Text.islinebreak, Text.isspace. intros H.
  repeat (apply orb_true_iff in H; destruct H as [H|H]);
    try (apply andb_true_iff in H; destruct H as [H1 H2]);
    repeat match goal with
           | H : (_ <=? _)%N = true |- _ => apply N.leb_le in H
           | H : (_ =? _)%N = true |- _ => apply N.eqb_eq in H
           end;
    repeat (apply orb_true_iff;
            first [ right; solve [apply N.eqb_eq; lia]
                  | right; solve [apply andb_true_iff; split; apply N.leb_le; lia]
                  | left ]);
    try solve [apply andb_true_iff; split; apply N.leb_le; lia].
Qed.

End TextFacts.

(** ** Lines and stripping *)

Section Lines.

Lemma rstrip_app_space (x w : pystr) :
  space w -> Text.rstrip (x ++ w) = Text.rstrip x.
Proof.
  intros Hw. unfold Text.rstrip. rewrite rev_app_distr.
  rewrite lstrip_app_space; [reflexivity|].
  apply lstrip_all_space. now apply Forall_rev.
Qed.

Lemma rstrip_nil : Text.rstrip [] = [].
Proof. reflexivity. Qed.

Lemma strip_all_space (w : pystr) : space w -> Text.strip w = [].
Proof.
  intros Hw. unfold Text.strip. now rewrite (lstrip_all_space _ Hw).
Qed.

Lemma strip_app_space (l w : pystr) :
  space w -> Text.strip (l ++ w) = Text.strip l.
Proof.
  intros Hw. unfold Text.strip.
  destruct (Text.lstrip l) eqn:E.
  - rewrite lstrip_app_space by exact E.
    now rewrite (lstrip_all_space _ Hw).
  - rewrite lstrip_app_nonspace by (rewrite E; discriminate).
    rewrite E. now apply rstrip_app_space.
Qed.

Lemma strip_cons_space (c : N) (l : pystr) :
  Text.isspace c = true -> Text.strip (c :: l) = Text.strip l.
Proof. intros H. unfold Text.strip. now rewrite lstrip_space. Qed.

Lemma is_json_line_nil : is_json_line [] = false.
Proof. reflexivity. Qed.

Lemma candidates_app (l1 l2 : list pystr) :
  candidates (l1 ++ l2) = candidates l1 ++ candidates l2.
Proof. unfold candidates. now rewrite filter_app, map_app. Qed.

Lemma candidates_cons (l : pystr) (ls : list pystr) :
  candidates (l :: ls)
  = (if is_json_line l then [Text.strip l] else []) ++ candidates ls.
Proof. unfold candidates. simpl. now destruct (is_json_line l). Qed.

Lemma candidates_same_strip (l l' : pystr) (ls : list pystr) :
  Text.strip l = Text.strip l' ->
  candidates (l :: ls) = candidates (l' :: ls).
Proof.
  intros H. rewrite !candidates_cons. unfold is_json_line. now rewrite H.
Qed.

Lemma candidates_blank (w : pystr) (ls : list pystr) :
  Text.strip w = [] -> candidates (w :: ls) = candidates ls.
Proof.
  intros H. rewrite candidates_cons. unfold is_json_line. now rewrite H.
Qed.

Lemma splitlines_cons_other (a : N) (s : pystr) :
  Text.islinebreak a = false ->
  Text.splitlines (a :: s) = prepend a (Text.splitlines s).
Proof. intros H. simpl. now rewrite H. Qed.

Lemma grown_cons (l : pystr) (ls ls' : list pystr) :
  grown ls ls' -> grown (l :: ls) (l :: ls').
Proof.
  intros H. destruct H as [ls | ls w Hw | init x w Hw].
  - constructor.
  - apply (@grown_line (l :: ls) w Hw).
  - apply (@grown_last (l :: init) x w Hw).
Qed.

Lemma grown_prepend (a : N) (ls ls' : list pystr) :
  grown ls ls' -> grown (prepend a ls) (prepend a ls').
Proof.
  intros H. destruct H as [ls | ls w Hw | init x w Hw].
  - constructor.
  - destruct ls as [|l ls]; simpl.
    + apply (@grown_last [] [a] w Hw).
    + apply (@grown_line ((a :: l) :: ls) w Hw).
  - destruct init as [|i init]; simpl.
    + apply (@grown_last [] (a :: x) w Hw).
    + apply (@grown_last ((a :: i) :: init) x w Hw).
Qed.

Lemma grown_candidates (ls ls' : list pystr) :
  grown ls ls' -> candidates ls' = candidates ls.
Proof.
  intros H. destruct H as [ls | ls w Hw | init x w Hw].
  - reflexivity.
  - rewrite candidates_app, (@candidates_blank w [] (strip_all_space _ Hw)).
    apply app_nil_r.
  - rewrite !candidates_app. f_equal.
    apply candidates_same_strip. now apply strip_app_space.
Qed.

Lemma splitlines_snoc_space (n : nat) (s : pystr) (c : N) :
  (List.length s <= n)%nat -> Text.isspace c = true ->
  grown (Text.splitlines s) (Text.splitlines (s ++ [c])).
Proof.
  revert s. induction n as [|n IH]; intros s Hn Hc.
  - destruct s; [|simpl in Hn; lia]. simpl.
    destruct (Text.islinebreak c).
    + destruct c as [|p]; [apply (@grown_line [] []); constructor|].
      destruct p as [p|p|];
        try (apply (@grown_line [] []); constructor).
      all: repeat (destruct p as [p|p|];
           try (apply (@grown_line [] []); constructor)).
    + apply (@grown_line [] [c]). now repeat constructor.
  - destruct s as [|a s]; [apply (IH []); [simpl; lia | exact Hc]|].
    simpl in Hn.
    destruct (Text.islinebreak a) eqn:Ea.
    + destruct (N.eq_dec a 13) as [->|Ha].
      * destruct s as [|b s].
        -- simpl app.
           destruct (N.eq_dec c 10) as [->|Hc10].
           ++ simpl. constructor.
           ++ change (Text.splitlines [13%N]) with ([] :: Text.splitlines []).
              replace (Text.splitlines [13%N; c])
                with ([] :: Text.splitlines ([] ++ [c])).
              ** apply grown_cons, IH; [simpl; lia | exact Hc].
              ** simpl. destruct c as [|p]; [reflexivity|].
                 repeat (destruct p as [p|p|]; try reflexivity;
                         try (exfalso; apply Hc10; reflexivity)).
        -- destruct (N.eq_dec b 10) as [->|Hb].
           ++ change (Text.splitlines (13%N :: 10%N :: s))
                with ([] :: Text.splitlines s).
              change (Text.splitlines ((13%N :: 10%N :: s) ++ [c]))
                with ([] :: Text.splitlines (s ++ [c])).
              apply grown_cons, IH; [simpl in Hn; lia | exact Hc].
           ++ replace (Text.splitlines (13%N :: b :: s))
                with ([] :: Text.splitlines (b :: s)).
              replace (Text.splitlines ((13%N :: b :: s) ++ [c]))
                with ([] :: Text.splitlines ((b :: s) ++ [c])).
              ** apply grown_cons, IH; [simpl in *; lia | exact Hc].
              ** simpl app. cbn [Text.splitlines]. simpl Text.islinebreak.
                 destruct b as [|p]; [reflexivity|].
                 repeat (destruct p as [p|p|]; try reflexivity;
                         try (exfalso; apply Hb; reflexivity)).
              ** cbn [Text.splitlines]. simpl Text.islinebreak.
                 destruct b as [|p]; [reflexivity|].
                 repeat (destruct p as [p|p|]; try reflexivity;
                         try (exfalso; apply Hb; reflexivity)).
      * replace (Text.splitlines (a :: s)) with ([] :: Text.splitlines s).
        replace (Text.splitlines ((a :: s) ++ [c]))
          with ([] :: Text.splitlines (s ++ [c])).
        -- apply grown_cons, IH; [lia | exact Hc].
        -- simpl app. cbn [Text.splitlines]. rewrite Ea.
           destruct a as [|p]; [reflexivity|].
           repeat (destruct p as [p|p|]; try reflexivity;
                   try (exfalso; apply Ha; reflexivity)).
        -- cbn [Text.splitlines]. rewrite Ea.
           destruct a as [|p]; [reflexivity|].
           repeat (destruct p as [p|p|]; try reflexivity;
                   try (exfalso; apply Ha; reflexivity)).
    + simpl app. rewrite !splitlines_cons_other by exact Ea.
      apply grown_prepend, IH; [lia | exact Hc].
Qed.

End Lines.

Section Extraction.

Lemma candidates_snoc_space (s : pystr) (c : N) :
  Text.isspace c = true ->
  candidates (Text.splitlines (s ++ [c])) = candidates (Text.splitlines s).
Proof.
  intros Hc. apply grown_candidates.
  now apply (@splitlines_snoc_space (List.length s)).
Qed.

Lemma candidates_cons_space (c : N) (s : pystr) :
  Text.isspace c = true ->
  candidates (Text.splitlines (c :: s)) = candidates (Text.splitlines s).
Proof.
  intros Hc. destruct (Text.islinebreak c) eqn:E.
  - assert (D : Text.splitlines (c :: s) = [] :: Text.splitlines s
                \/ exists s', s = 10%N :: s'
                              /\ Text.splitlines (c :: s)
                                 = [] :: Text.splitlines s').
    { simpl. rewrite E.
      destruct c as [|p]; [now left|].
      repeat (destruct p as [p|p|]; try (now left)).
      destruct s as [|b s']; [now left|].
      destruct b as [|q]; [now left|].
      repeat (destruct q as [q|q|]; try (now left)).
      right. now exists s'. }
    destruct D as [D | (s' & -> & D)]; rewrite D.
    + now apply candidates_blank.
    + change (Text.splitlines (10%N :: s')) with ([] :: Text.splitlines s').
      reflexivity.
  - rewrite splitlines_cons_other by exact E.
    destruct (Text.splitlines s) as [|l ls]; simpl prepend.
    + apply candidates_blank. apply strip_all_space. now repeat constructor.
    + apply candidates_same_strip. now apply strip_cons_space.
Qed.

Lemma candidates_lstrip (s : pystr) :
  candidates (Text.splitlines (Text.lstrip s))
  = candidates (Text.splitlines s).
Proof.
  induction s as [|c s IH]; [reflexivity|]. simpl Text.lstrip.
  destruct (Text.isspace c) eqn:E; [|reflexivity].
  now rewrite IH, candidates_cons_space.
Qed.

Lemma candidates_rstrip (s : pystr) :
  candidates (Text.splitlines (Text.rstrip s))
  = candidates (Text.splitlines s).
Proof.
  unfold Text.rstrip. rewrite <- (rev_involutive s) at 2.
  induction (rev s) as [|c t IH]; [reflexivity|]. simpl Text.lstrip.
  destruct (Text.isspace c) eqn:E; [|reflexivity].
  simpl rev. now rewrite candidates_snoc_space.
Qed.

(** Stripping the whole output first changes nothing for the search: the
    lines that can be found are those of the output as it was
    captured. *)
Lemma candidates_strip (s : pystr) :
  candidates (Text.splitlines (Text.strip s))
  = candidates (Text.splitlines s).
Proof.
  unfold Text.strip. now rewrite candidates_rstrip, candidates_lstrip.
Qed.

Lemma last_json_line_cons (x : pystr) (rest : list pystr) :
  last_json_line (x :: rest)
  = if is_json_line x then Text.strip x else last_json_line rest.
Proof. reflexivity. Qed.

(** The loop returns the last candidate. *)
Lemma last_json_line_rev (lines : list pystr) :
  last_json_line (rev lines) = last (candidates lines) [].
Proof.
  induction lines as [|x lines IH] using rev_ind; [reflexivity|].
  rewrite rev_app_distr, candidates_app, candidates_cons.
  change (rev [x] ++ rev lines) with (x :: rev lines).
  rewrite last_json_line_cons, IH.
  destruct (is_json_line x).
  - change (candidates []) with (@nil pystr).
    change ([Text.strip x] ++ []) with [Text.strip x].
    now rewrite last_last.
  - change (candidates []) with (@nil pystr).
    change (@nil pystr ++ []) with (@nil pystr).
    now rewrite app_nil_r.
Qed.

Lemma startswith_brace_truthy (s : pystr) :
  Text.startswith s (txt "{") = true -> Text.truthy s = true.
Proof. destruct s; [discriminate | reflexivity]. Qed.

Lemma candidates_truthy (lines : list pystr) (s : pystr) :
  In s (candidates lines) -> Text.truthy s = true.
Proof.
  unfold candidates. rewrite in_map_iff. intros (l & <- & Hl).
  apply filter_In in Hl. now apply startswith_brace_truthy.
Qed.

Lemma json_output_last (process : CompletedProcess) :
  last_json_line (rev (stdout_lines process))
  = last (candidates (Text.splitlines (stdout process))) [].
Proof.
  unfold stdout_lines. now rewrite last_json_line_rev, candidates_strip.
Qed.

Lemma candidates_none (lines : list pystr) :
  (forall l, In l lines -> is_json_line l = false) -> candidates lines = [].
Proof.
  intros H. unfold candidates.
  induction lines as [|l ls IH]; [reflexivity|]. simpl.
  rewrite (H l) by now left. apply IH. intros; apply H; now right.
Qed.

(** A list with a line of the wanted kind has a last one. *)
Lemma last_such_line (lines : list pystr) :
  (exists l, In l lines /\ is_json_line l = true) ->
  exists before line after,
    lines = before ++ line :: after
    /\ is_json_line line = true
    /\ (forall l, In l after -> is_json_line l = false).
Proof.
  induction lines as [|x ls IH]; intros (l & Hin & Hl); [destruct Hin|].
  destruct (existsb is_json_line ls) eqn:E.
  - apply existsb_exists in E. destruct (IH E) as (b & m & a & -> & Hm & Ha).
    exists (x :: b), m, a. repeat split; assumption.
  - exists [], x, ls. repeat split.
    + destruct Hin as [->|Hin]; [assumption|].
      assert (existsb is_json_line ls = true)
        by (apply existsb_exists; now exists l).
      congruence.
    + intros l' Hl'. destruct (is_json_line l') eqn:E'; [|reflexivity].
      assert (existsb is_json_line ls = true)
        by (apply existsb_exists; now exists l').
      congruence.
Qed.

End Extraction.

(** ** The handler as a whole *)

Section Handler.

Variable w : World.

Lemma handle_fails (e : exc) : is_success (handle e) = false.
Proof. destruct e; reflexivity. Qed.

Lemma handle_status (e : exc) : status (handle e) = 500.
Proof. destruct e; reflexivity. Qed.

Lemma run_test_completes (user_ctx : value) (process : CompletedProcess) :
  completes w user_ctx process ->
  run_test w
  = (match after_process w user_ctx process with
     | Ok response => response
     | Raise e => handle e
     end, Exited).
Proof.
  intros (data & Hreq & Hctx & Hrun).
  unfold run_test, try_block. rewrite Hreq, Hctx, Hrun. reflexivity.
Qed.

Lemma subprocess_run_ok (c : Child) (process : CompletedProcess)
  (st : ChildState) :
  subprocess_run 30 c = (Ok process, st) -> st = Exited.
Proof.
  destruct c as [e|t r|o e]; simpl; try discriminate.
  destruct (Qle_bool t 30); intros H; inv H. reflexivity.
Qed.

(** A success response comes from the end of the [try] block only. *)
Lemma run_test_success (td : TestData) (a : pystr) :
  body (fst (run_test w)) = Success td a ->
  exists user_ctx process,
    completes w user_ctx process
    /\ after_process w user_ctx process
       = Ok {| status := 200; body := Success td a |}.
Proof.
  unfold run_test, try_block, completes.
  destruct (request_json w) as [data|e] eqn:Hreq;
    [|simpl; intros H; pose proof (handle_fails e) as F;
      unfold is_success in F; rewrite H in F; discriminate].
  destruct (user_context data) as [ctx|e] eqn:Hctx;
    [|simpl; intros H; pose proof (handle_fails e) as F;
      unfold is_success in F; rewrite H in F; discriminate].
  destruct (subprocess_run 30 (speedtest w)) as [[process|e] st] eqn:Hrun;
    cbn [bind fst].
  - destruct (after_process w ctx process) as [r|e] eqn:Haft.
    + intros H. exists ctx, process. split.
      * exists data. repeat split; try assumption.
        f_equal. eapply subprocess_run_ok. exact Hrun.
      * pose proof Haft as Hr. unfold after_process in Haft.
        destruct (negb (returncode process =? 0)); [discriminate|].
        bind_cases Haft. inv Haft. simpl in H. now inv H.
    + intros H; pose proof (handle_fails e) as F;
        unfold is_success in F; rewrite H in F; discriminate.
  - intros H; pose proof (handle_fails e) as F;
      unfold is_success in F; rewrite H in F; discriminate.
Qed.

Lemma normalize_context (raw : RawMetrics) (user_ctx : value) (td : TestData) :
  normalize raw user_ctx = Ok td -> context td = user_ctx.
Proof.
  unfold normalize. intros H. bind_cases H. now inv H.
Qed.

(** What stands behind a success response. *)
Lemma after_process_success (user_ctx : value) (process : CompletedProcess)
  (td : TestData) (a : pystr) :
  after_process w user_ctx process
  = Ok {| status := 200; body := Success td a |} ->
  returncode process = 0
  /\ exists line decoded raw,
      json_output process = Ok line
      /\ test_data_raw (decode_error w) line = Ok decoded
      /\ raw_metrics decoded = Ok raw
      /\ normalize raw user_ctx = Ok td
      /\ generate_content w (prompt td) = Ok a.
Proof.
  unfold after_process.
  destruct (returncode process =? 0) eqn:Hrc; [|discriminate].
  cbn [negb]. intros H. bind_cases H. inv H.
  split; [now apply Z.eqb_eq|].
  eauto 10.
Qed.

End Handler.

(** ** Rounding to binary64 *)

Section Rounding.

Lemma rhe_le (a b K : Z) :
  0 <= a -> 0 < b -> a <= K * b -> Float.rhe a b <= K.
Proof.
  intros Ha Hb H. unfold Float.rhe.
  pose proof (Z.div_mod a b ltac:(lia)) as D.
  pose proof (Z.mod_pos_bound a b Hb) as R.
  assert (Hk : a / b <= K) by (apply Z.div_le_upper_bound; lia).
  assert (Hk1 : 0 < a mod b -> a / b + 1 <= K) by nia.
  destruct (2 * (a mod b) ?= b) eqn:C.
  - apply Z.compare_eq in C. destruct (Z.even (a / b)); lia.
  - exact Hk.
  - apply Z.compare_gt_iff in C. lia.
Qed.

Lemma rhe_below (a b K : Z) :
  0 <= a -> 0 < b -> 2 * a < (2 * K - 1) * b -> Float.rhe a b < K.
Proof.
  intros Ha Hb H. unfold Float.rhe.
  pose proof (Z.div_mod a b ltac:(lia)) as D.
  pose proof (Z.mod_pos_bound a b Hb) as R.
  assert (Hk : a / b < K) by nia.
  destruct (2 * (a mod b) ?= b) eqn:C.
  - apply Z.compare_eq in C.
    assert (a / b + 1 < K) by nia.
    destruct (Z.even (a / b)); lia.
  - exact Hk.
  - apply Z.compare_gt_iff in C. nia.
Qed.

Lemma rhe_nonneg (a b : Z) : 0 <= a -> 0 < b -> 0 <= Float.rhe a b.
Proof.
  intros Ha Hb. unfold Float.rhe.
  pose proof (Z.div_pos a b Ha Hb).
  destruct (2 * (a mod b) ?= b); [destruct (Z.even (a / b))| |]; lia.
Qed.

Lemma digits2_bound (n : Z) : 0 <= n -> n < 2 ^ Float.digits2 n.
Proof.
  intros Hn. unfold Float.digits2.
  destruct (n =? 0) eqn:E.
  - apply Z.eqb_eq in E. subst. reflexivity.
  - apply Z.eqb_neq in E.
    pose proof (Z.log2_spec n ltac:(lia)) as S.
    replace (Z.log2 n + 1) with (Z.succ (Z.log2 n)) by lia. lia.
Qed.

Lemma digits2_le (n d : Z) : 0 <= d -> 0 <= n -> n < 2 ^ d -> Float.digits2 n <= d.
Proof.
  intros Hd Hn H. unfold Float.digits2.
  destruct (n =? 0) eqn:E; [lia|].
  apply Z.eqb_neq in E.
  assert (Z.log2 n < d) by (apply Z.log2_lt_pow2; lia). lia.
Qed.

Lemma nearest_unfold (s : bool) (p q : Z) :
  Float.nearest s p q
  = let m := mantissa_of p q in
    let sh := shift_of p q in
    let m' := if m =? 2 ^ 53 then 2 ^ 52 else m in
    let sh' := if m =? 2 ^ 53 then sh + 1 else sh in
    if m' =? 0 then S754_zero s
    else if 971 <? sh' - 1074 then S754_infinity s
    else S754_finite s (Z.to_pos m') (sh' - 1074).
Proof. reflexivity. Qed.

Lemma mantissa_bound (p q : Z) :
  0 <= p -> 0 < q -> 0 <= mantissa_of p q <= 2 ^ 53.
Proof.
  intros Hp Hq. unfold mantissa_of, shift_of.
  set (n := p * 2 ^ 1074 / q).
  set (sh := Z.max 0 (Float.digits2 n - 53)).
  assert (Hsh : 0 <= sh) by (unfold sh; lia).
  assert (P1 : 0 < 2 ^ 1074) by (apply Z.pow_pos_nonneg; lia).
  assert (Psh : 0 < 2 ^ sh) by (apply Z.pow_pos_nonneg; lia).
  assert (Hn : 0 <= n) by (apply Z.div_pos; nia).
  split; [apply rhe_nonneg; nia|].
  apply rhe_le; [nia | nia |].
  pose proof (digits2_bound n Hn) as B.
  assert (D : Float.digits2 n <= 53 + sh) by (unfold sh; lia).
  assert (L : 2 ^ Float.digits2 n <= 2 ^ (53 + sh))
    by (apply Z.pow_le_mono_r; lia).
  rewrite Z.pow_add_r in L by lia.
  assert (p * 2 ^ 1074 < (n + 1) * q).
  { unfold n. pose proof (Z.div_mod (p * 2 ^ 1074) q ltac:(lia)).
    pose proof (Z.mod_pos_bound (p * 2 ^ 1074) q Hq). nia. }
  nia.
Qed.

Lemma nearest_bounded (s : bool) (p q : Z) (s' : bool) (m : positive) (e : Z) :
  0 <= p -> 0 < q ->
  Float.nearest s p q = S754_finite s' m e ->
  Z.pos m < 2 ^ 53 /\ e <= 971.
Proof.
  intros Hp Hq. rewrite nearest_unfold. cbv zeta.
  pose proof (mantissa_bound p q Hp Hq) as B.
  assert (P52 : (2:Z) ^ 52 < 2 ^ 53) by (apply Z.pow_lt_mono_r; lia).
  assert (Q52 : 0 < (2:Z) ^ 52) by (apply Z.pow_pos_nonneg; lia).
  destruct (mantissa_of p q =? 2 ^ 53) eqn:E.
  - destruct (2 ^ 52 =? 0) eqn:Z0; [discriminate|].
    destruct (971 <? shift_of p q + 1 - 1074) eqn:O; [discriminate|].
    apply Z.ltb_ge in O. intros H.
    assert (Hm : Z.pos m = 2 ^ 52).
    { injection H as _ Hm _. rewrite <- Hm. reflexivity. }
    injection H as _ _ He. lia.
  - apply Z.eqb_neq in E.
    destruct (mantissa_of p q =? 0) eqn:Z0; [discriminate|].
    apply Z.eqb_neq in Z0.
    destruct (971 <? shift_of p q - 1074) eqn:O; [discriminate|].
    apply Z.ltb_ge in O. intros H. inversion H; subst.
    rewrite Z2Pos.id by lia. lia.
Qed.

Lemma nearest_finite (s : bool) (p q : Z) :
  0 <= p -> 0 < q -> fits p q -> is_infinity (Float.nearest s p q) = false.
Proof.
  intros Hp Hq F. unfold fits in F. rewrite nearest_unfold. cbv zeta.
  pose proof (mantissa_bound p q Hp Hq) as B.
  assert (P1 : 0 < 2 ^ 1074) by (apply Z.pow_pos_nonneg; lia).
  assert (P2 : 0 < 2 ^ 971) by (apply Z.pow_pos_nonneg; lia).
  assert (P3 : 0 < 2 ^ 53) by (apply Z.pow_pos_nonneg; lia).
  assert (X1 : 2 ^ 1025 = 2 ^ 54 * 2 ^ 971)
    by (rewrite <- Z.pow_add_r; [reflexivity|lia|lia]).
  assert (X2 : 2 ^ 2045 = 2 ^ 971 * 2 ^ 1074)
    by (rewrite <- Z.pow_add_r; [reflexivity|lia|lia]).
  assert (X3 : 2 ^ 2098 = 2 ^ 53 * 2 ^ 2045)
    by (rewrite <- Z.pow_add_r; [reflexivity|lia|lia]).
  assert (X4 : (2:Z) ^ 54 = 2 * 2 ^ 53)
    by (change 54 with (1 + 53); rewrite Z.pow_add_r; [reflexivity|lia|lia]).
  set (n := p * 2 ^ 1074 / q).
  assert (Hn : 0 <= n) by (apply Z.div_pos; nia).
  assert (Hd : Float.digits2 n <= 2098).
  { apply digits2_le; [lia | exact Hn |].
    apply Z.div_lt_upper_bound; [lia|].
    rewrite X3, X2. nia. }
  assert (Hs : shift_of p q <= 2045) by (unfold shift_of; fold n; lia).
  assert (Hm : shift_of p q = 2045 -> mantissa_of p q < 2 ^ 53).
  { intros S. unfold mantissa_of. rewrite S.
    apply rhe_below; [nia | nia |]. rewrite X2. nia. }
  destruct (mantissa_of p q =? 2 ^ 53) eqn:E.
  - apply Z.eqb_eq in E.
    destruct (2 ^ 52 =? 0); [reflexivity|].
    destruct (971 <? shift_of p q + 1 - 1074) eqn:O; [|reflexivity].
    apply Z.ltb_lt in O. lia.
  - destruct (mantissa_of p q =? 0); [reflexivity|].
    destruct (971 <? shift_of p q - 1074) eqn:O; [|reflexivity].
    apply Z.ltb_lt in O. lia.
Qed.

Lemma nearest_is_bounded (s : bool) (p q : Z) :
  0 <= p -> 0 < q -> bounded (Float.nearest s p q).
Proof.
  intros Hp Hq. destruct (Float.nearest s p q) eqn:E; simpl; trivial.
  exact (nearest_bounded s p q _ _ _ Hp Hq E).
Qed.

Lemma mag_num_pos (m : positive) (e : Z) : 0 < Float.mag_num m e.
Proof.
  unfold Float.mag_num. destruct (0 <=? e) eqn:E; [|lia].
  apply Z.leb_le in E. pose proof (Z.pow_pos_nonneg 2 e). nia.
Qed.

Lemma mag_den_pos (e : Z) : 0 < Float.mag_den e.
Proof.
  unfold Float.mag_den. destruct (0 <=? e) eqn:E; [lia|].
  apply Z.leb_gt in E. apply Z.pow_pos_nonneg; lia.
Qed.

Lemma max_float_fits (p q : Z) : 0 < q -> p <= max_float * q -> fits p q.
Proof.
  intros Hq H. unfold fits, max_float in *.
  assert (P2 : 0 < 2 ^ 971) by (apply Z.pow_pos_nonneg; lia).
  assert (X1 : 2 ^ 1025 = 2 ^ 54 * 2 ^ 971)
    by (rewrite <- Z.pow_add_r; [reflexivity|lia|lia]).
  assert (X4 : (2:Z) ^ 54 = 2 * 2 ^ 53)
    by (change 54 with (1 + 53); rewrite Z.pow_add_r; [reflexivity|lia|lia]).
  rewrite X1, X4. nia.
Qed.

Lemma bounded_mag (m : positive) (e : Z) :
  Z.pos m < 2 ^ 53 -> e <= 971 ->
  Float.mag_num m e <= max_float * Float.mag_den e.
Proof.
  intros Hm He. unfold Float.mag_num, Float.mag_den, max_float.
  assert (P2 : 0 < 2 ^ 971) by (apply Z.pow_pos_nonneg; lia).
  destruct (0 <=? e) eqn:E.
  - apply Z.leb_le in E.
    assert (2 ^ e <= 2 ^ 971) by (apply Z.pow_le_mono_r; lia).
    pose proof (Z.pow_pos_nonneg 2 e). nia.
  - apply Z.leb_gt in E.
    assert (0 < 2 ^ (- e)) by (apply Z.pow_pos_nonneg; lia). nia.
Qed.

(** Rounding at a place after the point cannot leave the format. *)
Lemma double_round_total (s : bool) (m : positive) (e : Z) (ndigits B : Z) :
  0 <= ndigits ->
  Float.mag_num m e <= B * Float.mag_den e -> B <= max_float ->
  exists f, Float.double_round s m e ndigits = Ok f /\ bounded f.
Proof.
  intros Hn HB Hmax. unfold Float.double_round.
  apply Z.leb_le in Hn. rewrite Hn. apply Z.leb_le in Hn.
  pose proof (mag_num_pos m e) as N. pose proof (mag_den_pos e) as D.
  assert (T : 0 < 10 ^ ndigits) by (apply Z.pow_pos_nonneg; lia).
  set (k := Float.rhe (Float.mag_num m e * 10 ^ ndigits) (Float.mag_den e)).
  assert (K0 : 0 <= k) by (apply rhe_nonneg; nia).
  assert (K : k <= B * 10 ^ ndigits) by (apply rhe_le; nia).
  assert (F : fits k (10 ^ ndigits))
    by (apply max_float_fits; [exact T | nia]).
  pose proof (nearest_finite s k (10 ^ ndigits) K0 T F) as I.
  pose proof (nearest_is_bounded s k (10 ^ ndigits) K0 T) as Bd.
  destruct (Float.nearest s k (10 ^ ndigits)) eqn:E;
    try discriminate I; eexists; split; try reflexivity; exact Bd.
Qed.

Lemma round_total (x : spec_float) (ndigits : Z) :
  0 <= ndigits -> bounded x ->
  exists f, Float.round x ndigits = Ok f /\ bounded f.
Proof.
  intros Hn Hb. destruct x as [s|s| |s m e]; simpl Float.round;
    try (eexists; split; [reflexivity | exact I]).
  destruct (Float.NDIGITS_MAX <? ndigits);
    [eexists; split; [reflexivity | exact Hb]|].
  destruct (ndigits <? Float.NDIGITS_MIN);
    [eexists; split; [reflexivity | exact I]|].
  destruct Hb as [Hm He].
  apply (double_round_total s m e ndigits max_float Hn);
    [now apply bounded_mag | lia].
Qed.

End Rounding.

(** ** The arithmetic of the metrics *)

Section Metrics.

Lemma million_float :
  Float.float_of_int 1000000
  = Ok (S754_finite false 8589934592000000 (-33)).
Proof. vm_compute. reflexivity. Qed.

Lemma truediv_float_total (x : spec_float) :
  exists q, truediv (VFloat x) 1000000 = Ok q /\ bounded q.
Proof.
  unfold truediv. cbn [as_num]. rewrite million_float. cbn [bind].
  destruct x as [s|s| |s m e]; cbn [Float.float_truediv xorb];
    try (eexists; split; [reflexivity | exact I]).
  eexists. split; [reflexivity|].
  pose proof (mag_num_pos m e). pose proof (mag_den_pos e).
  pose proof (mag_num_pos 8589934592000000 (-33)).
  pose proof (mag_den_pos (-33)).
  apply nearest_is_bounded; nia.
Qed.

Lemma truediv_int_total (z : Z) :
  int_in_range z ->
  exists q, truediv (VInt z) 1000000 = Ok q /\ bounded q.
Proof.
  intros F. unfold truediv. cbn [as_num]. unfold Float.int_truediv.
  change (1000000 =? 0) with false. cbv iota.
  change (Z.abs 1000000) with 1000000.
  pose proof (nearest_finite (xorb (z <? 0) (1000000 <? 0)) (Z.abs z) 1000000
                ltac:(lia) ltac:(lia) F) as NI.
  pose proof (nearest_is_bounded (xorb (z <? 0) (1000000 <? 0)) (Z.abs z)
                1000000 ltac:(lia) ltac:(lia)) as B.
  destruct (Float.nearest _ _ _); try discriminate NI;
    eexists; (split; [reflexivity | exact B]).
Qed.

Lemma truediv_total (v : value) (n : num) :
  as_num v = Some n -> in_range n ->
  exists q, truediv v 1000000 = Ok q /\ bounded q.
Proof.
  intros Hn Hr. destruct v; try discriminate Hn; cbn in Hn; inversion Hn; subst.
  - apply (truediv_int_total (Z.b2z b)). exact Hr.
  - apply truediv_int_total. exact Hr.
  - apply truediv_float_total.
Qed.

Lemma mbit_total (v : value) (n : num) :
  as_num v = Some n -> in_range n ->
  exists q r,
    truediv v 1000000 = Ok q /\ Float.round q 2 = Ok r
    /\ mbit v = Ok (Float.repr r ++ txt " Mbit/s").
Proof.
  intros Hn Hr. destruct (truediv_total v n Hn Hr) as (q & Hq & Bq).
  destruct (round_total q 2 ltac:(lia) Bq) as (r & Hround & _).
  exists q, r. split; [exact Hq|]. split; [exact Hround|].
  unfold mbit. rewrite Hq. cbn [bind]. rewrite Hround. reflexivity.
Qed.

Lemma small_below_max (B : Z) : B <= 10000 -> B <= max_float.
Proof.
  intros H. unfold max_float.
  assert (0 < 2 ^ 971) by (apply Z.pow_pos_nonneg; lia).
  change (2 ^ 53) with 9007199254740992. nia.
Qed.

Lemma ping_guard (v : value) (n : num) :
  as_num v = Some n ->
  format_ping v
  = if ping_rejected n then Ok (txt "Feil/For høy")
    else r <- round v 0 ;; Ok (str_num r ++ txt " ms").
Proof.
  intros Hn. unfold format_ping, gt_int, le_float, ping_rejected.
  rewrite Hn. cbn [bind].
  destruct (Float.xgt (exact n) (Float.of_int 10000)); cbn [bind orb];
    reflexivity.
Qed.

Lemma round_accepted_ping (v : value) (n : num) :
  as_num v = Some n -> ping_rejected n = false ->
  exists r, round v 0 = Ok r.
Proof.
  intros Hn Hg. unfold round. rewrite Hn.
  destruct n as [z|x]; [eexists; reflexivity|].
  unfold ping_rejected in Hg. apply orb_false_iff in Hg. destruct Hg as [G L].
  cbn [exact] in G, L.
  destruct x as [s|s| |s m e];
    try (cbn in L; discriminate L);
    try (destruct s; cbn in G, L; discriminate);
    try (eexists; reflexivity).
  destruct s.
  - exfalso. cbn [Float.of_float zero_float] in L.
    unfold Float.xle, Float.xlt in L.
    pose proof (mag_num_pos m e). pose proof (mag_den_pos e).
    apply orb_false_iff in L. destruct L as [L _].
    apply Z.ltb_ge in L. nia.
  - cbn [Float.of_float Float.of_int] in G. unfold Float.xgt, Float.xlt in G.
    apply Z.ltb_ge in G.
    cbn [Float.round]. change (Float.NDIGITS_MAX <? 0) with false.
    change (0 <? Float.NDIGITS_MIN) with false. cbv iota.
    destruct (double_round_total false m e 0 10000 ltac:(lia) ltac:(lia)
                (small_below_max 10000 ltac:(lia))) as (f & Hf & _).
    rewrite Hf. eexists. reflexivity.
Qed.

Lemma float_round_raises (x : spec_float) (nd : Z) (e : exc) :
  Float.round x nd = Raise e -> other e.
Proof.
  destruct x as [s|s| |s m ex]; cbn [Float.round]; try discriminate.
  destruct (Float.NDIGITS_MAX <? nd); [discriminate|].
  destruct (nd <? Float.NDIGITS_MIN); [discriminate|].
  unfold Float.double_round.
  match goal with |- match ?r with _ => _ end = _ -> _ => destruct r end;
    intros H; inversion H; reflexivity.
Qed.

Lemma float_of_int_raises (z : Z) (e : exc) :
  Float.float_of_int z = Raise e -> other e.
Proof.
  unfold Float.float_of_int.
  destruct (Float.nearest (z <? 0) (Z.abs z) 1); try discriminate.
  intros H; inversion H; reflexivity.
Qed.

Lemma float_truediv_raises (x y : spec_float) (e : exc) :
  Float.float_truediv x y = Raise e -> other e.
Proof.
  destruct y, x; cbn [Float.float_truediv]; try discriminate;
    intros H; inversion H; reflexivity.
Qed.

Lemma int_truediv_raises (a b : Z) (e : exc) :
  Float.int_truediv a b = Raise e -> other e.
Proof.
  unfold Float.int_truediv.
  destruct (b =? 0); [intros H; inversion H; reflexivity|].
  destruct (Float.nearest _ (Z.abs a) (Z.abs b)); try discriminate.
  intros H; inversion H; reflexivity.
Qed.

Lemma truediv_raises (v : value) (b : Z) (e : exc) :
  truediv v b = Raise e -> other e.
Proof.
  unfold truediv. destruct (as_num v) as [[z|x]|].
  - apply int_truediv_raises.
  - destruct (Float.float_of_int b) as [y|e'] eqn:F; cbn [bind].
    + apply float_truediv_raises.
    + intros H; inversion H; subst. exact (float_of_int_raises _ _ F).
  - intros H; inversion H; reflexivity.
Qed.

Lemma mbit_raises (v : value) (e : exc) : mbit v = Raise e -> other e.
Proof.
  unfold mbit. destruct (truediv v 1000000) as [q|e'] eqn:T; cbn [bind].
  - destruct (Float.round q 2) as [r|e'] eqn:R; cbn [bind]; [discriminate|].
    intros H; inversion H; subst. exact (float_round_raises _ _ _ R).
  - intros H; inversion H; subst. exact (truediv_raises _ _ _ T).
Qed.

Lemma round_raises (v : value) (nd : Z) (e : exc) :
  round v nd = Raise e -> other e.
Proof.
  unfold round. destruct (as_num v) as [[z|x]|].
  - destruct (0 <=? nd); discriminate.
  - destruct (Float.round x nd) as [r|e'] eqn:R; cbn [bind]; [discriminate|].
    intros H; inversion H; subst. exact (float_round_raises _ _ _ R).
  - intros H; inversion H; reflexivity.
Qed.

Lemma format_download_raises (v : value) (e : exc) :
  format_download v = Raise e -> other e.
Proof.
  unfold format_download, le_float. destruct (as_num v); cbn [bind].
  - destruct (Float.xle _ _); [discriminate | apply mbit_raises].
  - intros H; inversion H; reflexivity.
Qed.

Lemma format_ping_raises (v : value) (e : exc) :
  format_ping v = Raise e -> other e.
Proof.
  unfold format_ping, gt_int, le_float. destruct (as_num v); cbn [bind].
  - destruct (Float.xgt _ _); cbn [bind].
    + discriminate.
    + destruct (Float.xle _ _); [discriminate|].
      destruct (round v 0) eqn:R; cbn [bind]; [discriminate|].
      intros H; inversion H; subst. exact (round_raises _ _ _ R).
  - intros H; inversion H; reflexivity.
Qed.

Lemma normalize_raises (raw : RawMetrics) (ctx : value) (e : exc) :
  normalize raw ctx = Raise e -> other e.
Proof.
  unfold normalize, format_upload.
  destruct (mbit (raw_upload_bits raw)) eqn:U; cbn [bind];
    [|intros H; inversion H; subst; exact (mbit_raises _ _ U)].
  destruct (format_download (raw_download_bits raw)) eqn:D; cbn [bind];
    [|intros H; inversion H; subst; exact (format_download_raises _ _ D)].
  destruct (format_ping (raw_ping_ms raw)) eqn:P; cbn [bind];
    [discriminate|].
  intros H; inversion H; subst; exact (format_ping_raises _ _ P).
Qed.

(** The fields of a result of [normalize] are the three formatted
    metrics. *)
Lemma normalize_fields (raw : RawMetrics) (ctx : value) (td : TestData) :
  normalize raw ctx = Ok td ->
  format_upload (raw_upload_bits raw) = Ok (upload td)
  /\ format_download (raw_download_bits raw) = Ok (download td)
  /\ format_ping (raw_ping_ms raw) = Ok (ping td).
Proof.
  unfold normalize. intros H. bind_cases H. inversion H; subst.
  cbn [upload download ping]. auto.
Qed.

End Metrics.

(* ================================================================== *)
(** * The claims *)
(* ================================================================== *)

(** ** Extraction *)

(** C5.  When the captured standard output has a line whose first character
    after stripping is an opening brace, the search returns the last such
    line (stripped): the lines after it do not qualify.  The lines are those
    of the output as captured; that the handler strips the whole output
    before splitting makes no difference ([candidates_strip]). *)
Theorem C5_last_brace_line_is_selected (process : CompletedProcess) :
  (exists l, In l (Text.splitlines (stdout process))
             /\ is_json_line l = true) ->
  exists before line after,
    Text.splitlines (stdout process) = before ++ line :: after
    /\ is_json_line line = true
    /\ (forall l, In l after -> is_json_line l = false)
    /\ json_output process = Ok (Text.strip line).
Proof.
  intros H. destruct (last_such_line _ H) as (b & m & a & Hs & Hm & Ha).
  exists b, m, a. split; [exact Hs|]. split; [exact Hm|]. split; [exact Ha|].
  unfold json_output. rewrite json_output_last, Hs.
  rewrite candidates_app, candidates_cons, Hm, (candidates_none _ Ha).
  rewrite app_nil_r, last_last.
  unfold is_json_line in Hm.
  rewrite (startswith_brace_truthy _ Hm). reflexivity.
Qed.

Lemma C5_witness :
  exists before line after,
    Text.splitlines two_brace_lines = before ++ line :: after
    /\ is_json_line line = true
    /\ (forall l, In l after -> is_json_line l = false)
    /\ json_output (finished 0 two_brace_lines []) = Ok (Text.strip line).
Proof.
  apply (C5_last_brace_line_is_selected (finished 0 two_brace_lines [])).
  exists (txt "  {second}  "). split; [|vm_compute; reflexivity].
  vm_compute. right. right. left. reflexivity.
Defined.

Example two_brace_lines_output :
  json_output (finished 0 two_brace_lines []) = Ok (txt "{second}").
Proof. vm_compute. reflexivity. Qed.

(** C6, as amended.  When no line of the captured standard output starts,
    after stripping, with an opening brace, the search raises [ValueError],
    the clause for [ValueError] answers with status 500, and the message
    holds the standard output and the standard error with the white space
    at their ends stripped (not the raw texts). *)
Theorem C6_no_brace_line_fails (w : World) (user_ctx : value)
  (process : CompletedProcess) :
  completes w user_ctx process ->
  returncode process = 0 ->
  (forall l, In l (Text.splitlines (stdout process))
             -> is_json_line l = false) ->
  json_output process = Raise (ValueError (no_json_message process))
  /\ run_test w
     = ({| status := 500;
           body := Failure
                     (txt "Serverfeil ved behandling av Speedtest-resultater: "
                        ++ no_json_message process) |}, Exited)
  /\ Text.contains (message (fst (run_test w))) (Text.strip (stdout process))
     = true
  /\ Text.contains (message (fst (run_test w))) (Text.strip (stderr process))
     = true.
Proof.
  intros Hc Hrc Hnone.
  assert (Hj : json_output process = Raise (ValueError (no_json_message process))).
  { unfold json_output, no_json_message.
    rewrite json_output_last, (candidates_none _ Hnone).
    cbn [last Text.truthy negb]. reflexivity. }
  assert (Hr : run_test w
               = ({| status := 500;
                     body := Failure
                       (txt "Serverfeil ved behandling av Speedtest-resultater: "
                          ++ no_json_message process) |}, Exited)).
  { rewrite (run_test_completes _ _ _ Hc). unfold after_process.
    rewrite Hrc, Hj. cbn [Z.eqb negb bind handle]. reflexivity. }
  split; [exact Hj|]. split; [exact Hr|].
  rewrite Hr. unfold message, no_json_message. cbn [fst body].
  hide_texts. split.
  - do 2 apply contains_skip. apply contains_prefix.
  - do 4 apply contains_skip. apply contains_refl.
Qed.

Lemma C6_witness :
  json_output no_json_process
  = Raise (ValueError (no_json_message no_json_process))
  /\ run_test no_json_world
     = ({| status := 500;
           body := Failure
                     (txt "Serverfeil ved behandling av Speedtest-resultater: "
                        ++ no_json_message no_json_process) |}, Exited)
  /\ Text.contains (message (fst (run_test no_json_world)))
                   (Text.strip (stdout no_json_process)) = true
  /\ Text.contains (message (fst (run_test no_json_world)))
                   (Text.strip (stderr no_json_process)) = true.
Proof.
  apply (C6_no_brace_line_fails no_json_world (VStr default_context)
           no_json_process).
  - exists (VDict []). split; [reflexivity|]. split; vm_compute; reflexivity.
  - reflexivity.
  - intros l [<-|[]]. vm_compute. reflexivity.
Defined.

Example no_json_message_text :
  message (fst (run_test no_json_world))
  = txt "Serverfeil ved behandling av Speedtest-resultater: Klarte ikke å finne JSON-utdata fra Speedtest. Full utdata (STDOUT): Testing.... STDERR: warning".
Proof. vm_compute. reflexivity. Qed.

(** C6 as stated fails: the raw standard output, with its final new line,
    is not part of the failure message. *)
Lemma C6_counterexample :
  Text.contains (message (fst (run_test no_json_world)))
                (stdout no_json_process) = false.
Proof. vm_compute. reflexivity. Qed.

(** ** Process failures *)

(** C7, as amended.  When the command finishes with a non-zero exit status,
    [CalledProcessError] is raised with the captured output, its clause
    answers with status 500, and the message holds the exit status and the
    standard output and standard error with the white space at their ends
    stripped (not verbatim); nothing else of the output is dropped. *)
Theorem C7_nonzero_exit_fails (w : World) (user_ctx : value)
  (process : CompletedProcess) :
  completes w user_ctx process ->
  returncode process <> 0 ->
  after_process w user_ctx process
  = Raise (CalledProcessError (returncode process) (stdout process)
             (stderr process))
  /\ run_test w
     = ({| status := 500;
           body := Failure (process_error_message process) |}, Exited)
  /\ Text.contains (message (fst (run_test w))) (Text.strip (stdout process))
     = true
  /\ Text.contains (message (fst (run_test w))) (Text.strip (stderr process))
     = true.
Proof.
  intros Hc Hrc.
  assert (Ha : after_process w user_ctx process
               = Raise (CalledProcessError (returncode process)
                          (stdout process) (stderr process))).
  { unfold after_process. apply Z.eqb_neq in Hrc. rewrite Hrc.
    cbn [negb]. reflexivity. }
  assert (Hr : run_test w
               = ({| status := 500;
                     body := Failure (process_error_message process) |},
                  Exited)).
  { rewrite (run_test_completes _ _ _ Hc), Ha.
    unfold process_error_message. cbn [handle]. reflexivity. }
  split; [exact Ha|]. split; [exact Hr|].
  rewrite Hr. unfold message, process_error_message. cbn [fst body].
  hide_texts. split.
  - do 4 apply contains_skip. apply contains_prefix.
  - do 6 apply contains_skip. apply contains_refl.
Qed.

Lemma C7_witness :
  after_process failed_world (VStr default_context) failed_process
  = Raise (CalledProcessError 1 (stdout failed_process)
             (stderr failed_process))
  /\ run_test failed_world
     = ({| status := 500;
           body := Failure (process_error_message failed_process) |}, Exited)
  /\ Text.contains (message (fst (run_test failed_world)))
                   (Text.strip (stdout failed_process)) = true
  /\ Text.contains (message (fst (run_test failed_world)))
                   (Text.strip (stderr failed_process)) = true.
Proof.
  apply (C7_nonzero_exit_fails failed_world (VStr default_context)
           failed_process).
  - exists (VDict []). split; [reflexivity|]. split; vm_compute; reflexivity.
  - discriminate.
Defined.

Example failed_message_text :
  message (fst (run_test failed_world))
  = txt "Kritisk Speedtest-feil. Sjekk installasjonen. Feil ved kjøring av Speedtest. Returkode: 1. STDOUT: Retrieving speedtest.net configuration.... STDERR: ERROR: Unable to connect".
Proof. vm_compute. reflexivity. Qed.

(** C7 as stated fails: with exit status 1, neither the captured standard
    output nor the captured standard error is in the message verbatim. *)
Lemma C7_counterexample :
  Text.contains (message (fst (run_test failed_world)))
                (stdout failed_process) = false
  /\ Text.contains (message (fst (run_test failed_world)))
                   (stderr failed_process) = false.
Proof. split; vm_compute; reflexivity. Qed.

(** ** The deadline *)

(** C8.  [subprocess.run] is called once, with [timeout=30].  When the
    request was read and the child, once started, has not exited after 30
    seconds, the child is killed, [TimeoutExpired] is raised and its clause
    answers with a fixed failure message and status 500: the response is
    the same whatever the child had written, and it is no success. *)
Theorem C8_timeout_fails (w : World) (data user_ctx : value) :
  request_json w = Ok data ->
  user_context data = Ok user_ctx ->
  running_after 30 (speedtest w) = true ->
  subprocess_run 30 (speedtest w) = (Raise TimeoutExpired, Killed)
  /\ run_test w
     = ({| status := 500; body := Failure timeout_message |}, Killed)
  /\ is_success (fst (run_test w)) = false.
Proof.
  intros Hreq Hctx Hrun.
  assert (Hs : subprocess_run 30 (speedtest w) = (Raise TimeoutExpired, Killed)).
  { destruct (speedtest w) as [e|t r|o e]; simpl in *;
      [discriminate | | reflexivity].
    destruct (Qle_bool t 30); [discriminate | reflexivity]. }
  assert (Hr : run_test w
               = ({| status := 500; body := Failure timeout_message |},
                  Killed)).
  { unfold run_test, try_block. rewrite Hreq, Hctx, Hs.
    unfold timeout_message. cbn [bind handle]. reflexivity. }
  split; [exact Hs|]. split; [exact Hr|]. rewrite Hr.
  unfold is_success. cbn [fst body]. reflexivity.
Qed.

Lemma C8_witness :
  subprocess_run 30 (speedtest hanging_world) = (Raise TimeoutExpired, Killed)
  /\ run_test hanging_world
     = ({| status := 500; body := Failure timeout_message |}, Killed)
  /\ is_success (fst (run_test hanging_world)) = false.
Proof.
  apply (C8_timeout_fails hanging_world (VDict []) (VStr default_context));
    vm_compute; reflexivity.
Defined.

(** A child that exits on its own, but only after 31 seconds. *)
Example late_exit :
  run_test (quiet_world (Exits 31 (finished 0 nl [])))
  = ({| status := 500; body := Failure timeout_message |}, Killed).
Proof. vm_compute. reflexivity. Qed.

(** ** The caller's context *)

(** C9, as amended.  The fixed text is used when the request body has no
    [context] key; a [context] that is present is used as it is, the empty
    string included.  The context of a success response and the context in
    the prompt of the generator are this value. *)
Theorem C9_context_default (w : World) (d : dict) :
  request_json w = Ok (VDict d) ->
  user_context (VDict d) = Ok (context_used d)
  /\ (Dict.lookup d (txt "context") = None ->
      context_used d = VStr default_context)
  /\ (forall v, Dict.lookup d (txt "context") = Some v -> context_used d = v)
  /\ (forall td a,
        body (fst (run_test w)) = Success td a ->
        context td = context_used d
        /\ exists p, generate_content w p = Ok a
                     /\ prompt_context p = context_used d).
Proof.
  intros Hreq. unfold context_used.
  split; [reflexivity|].
  split; [intros H; now rewrite H|].
  split; [intros v H; now rewrite H|].
  intros td a H.
  destruct (run_test_success _ _ _ H) as (ctx & process & Hc & Ha).
  destruct Hc as (data & Hreq' & Hctx & _).
  rewrite Hreq in Hreq'. inv Hreq'.
  unfold user_context, Dict.get in Hctx. inv Hctx.
  destruct (after_process_success _ _ _ _ _ Ha)
    as (_ & line & dec & raw & _ & _ & _ & Hn & Hg).
  pose proof (normalize_context _ _ _ Hn) as Hcx.
  split; [exact Hcx|].
  exists (prompt td). split; [exact Hg|]. exact Hcx.
Qed.

Lemma C9_witness :
  user_context (VDict empty_context_body)
  = Ok (context_used empty_context_body)
  /\ (Dict.lookup empty_context_body (txt "context") = None ->
      context_used empty_context_body = VStr default_context)
  /\ (forall v, Dict.lookup empty_context_body (txt "context") = Some v ->
                context_used empty_context_body = v)
  /\ (forall td a,
        body (fst (run_test empty_context_world)) = Success td a ->
        context td = context_used empty_context_body
        /\ exists p, generate_content empty_context_world p = Ok a
                     /\ prompt_context p = context_used empty_context_body).
Proof.
  apply (C9_context_default empty_context_world empty_context_body).
  reflexivity.
Defined.

(** C9 as stated fails: an empty context is not replaced by the fixed
    text, neither in [user_context] nor in the response. *)
Lemma C9_counterexample :
  user_context (VDict empty_context_body) = Ok (VStr [])
  /\ VStr [] <> VStr default_context
  /\ body (fst (run_test empty_context_world))
     = Success {| download := txt "50.0 Mbit/s";
                  upload := txt "10.0 Mbit/s";
                  ping := txt "20 ms";
                  context := VStr [] |} (txt "<p>ok</p>").
Proof.
  split; [vm_compute; reflexivity|].
  split; [vm_compute; discriminate|].
  vm_compute. reflexivity.
Qed.

(** ** Normalization *)

(** C2, as amended.  For raw metrics with a numeric ping: when
    [raw.ping > 10000] or [raw.ping <= 0.0] the ping is the fixed text
    "Feil/For høy" (the ping sentinel of the code; not "Error/Too high");
    otherwise [round(raw.ping, 0)] has a value and the ping is that value
    followed by " ms".  The ping of every result of the normalization is
    the one so formatted. *)
Theorem C2_ping_rule (raw : RawMetrics) (n : num) :
  as_num (raw_ping_ms raw) = Some n ->
  (ping_rejected n = true ->
   format_ping (raw_ping_ms raw) = Ok ping_sentinel)
  /\ (ping_rejected n = false ->
      exists r, round (raw_ping_ms raw) 0 = Ok r
                /\ format_ping (raw_ping_ms raw) = Ok (str_num r ++ txt " ms"))
  /\ (forall ctx td, normalize raw ctx = Ok td ->
                     format_ping (raw_ping_ms raw) = Ok (ping td)).
Proof.
  intros Hn. rewrite (ping_guard _ _ Hn).
  split; [intros G; rewrite G; reflexivity|].
  split.
  - intros G. rewrite G.
    destruct (round_accepted_ping _ _ Hn G) as (r & Hr).
    exists r. split; [exact Hr|]. rewrite Hr. reflexivity.
  - intros ctx td H. rewrite <- (ping_guard _ _ Hn).
    apply (normalize_fields raw ctx td H).
Qed.

Lemma C2_witness :
  (ping_rejected (NInt 15000) = true ->
   format_ping (raw_ping_ms ping_15000) = Ok ping_sentinel)
  /\ (ping_rejected (NInt 15000) = false ->
      exists r, round (raw_ping_ms ping_15000) 0 = Ok r
                /\ format_ping (raw_ping_ms ping_15000)
                   = Ok (str_num r ++ txt " ms"))
  /\ (forall ctx td, normalize ping_15000 ctx = Ok td ->
                     format_ping (raw_ping_ms ping_15000) = Ok (ping td)).
Proof.
  apply (C2_ping_rule ping_15000 (NInt 15000)). reflexivity.
Defined.

(** C2 as stated fails: for a ping of 15000 the text is not
    "Error/Too high". *)
Lemma C2_counterexample :
  format_ping (VInt 15000) <> Ok (txt "Error/Too high").
Proof. vm_compute. discriminate. Qed.

Example ping_samples :
  format_ping (VInt 15000) = Ok (txt "Feil/For høy")
  /\ format_ping (VInt 10000) = Ok (txt "10000 ms")
  /\ format_ping (VInt 0) = Ok (txt "Feil/For høy")
  /\ format_ping (VFloat (Float.nearest false 203 10)) = Ok (txt "20.0 ms")
  /\ format_ping (VFloat (Float.nearest false 5 2)) = Ok (txt "2.0 ms")
  /\ format_ping (VFloat (Float.nearest false 7 2)) = Ok (txt "4.0 ms")
  /\ format_ping (VFloat (Float.nearest false 1 4)) = Ok (txt "0.0 ms")
  /\ format_ping (VFloat S754_nan) = Ok (txt "nan ms")
  /\ format_ping (VFloat (S754_infinity false)) = Ok (txt "Feil/For høy")
  /\ format_ping (VBool true) = Ok (txt "1 ms").
Proof. repeat (split; [vm_compute; reflexivity|]). vm_compute. reflexivity. Qed.






Lemma mbit_shape (v : value) (s : pystr) :
  mbit v = Ok s ->
  exists q r, truediv v 1000000 = Ok q /\ Float.round q 2 = Ok r
              /\ s = Float.repr r ++ txt " Mbit/s".
Proof.
  unfold mbit. intros H.
  destruct (truediv v 1000000) as [q|] eqn:Hq; [|discriminate H].
  cbn [bind] in H.
  destruct (Float.round q 2) as [r|] eqn:Hr; [|discriminate H].
  cbn [bind] in H. exists q, r.
  split; [reflexivity|]. split; [exact Hr|]. now inversion H.
Qed.



Example upload_samples :
  format_upload (VInt 10000000) = Ok (txt "10.0 Mbit/s")
  /\ format_upload (VInt 0) = Ok (txt "0.0 Mbit/s")
  /\ format_upload (VFloat zero_float) = Ok (txt "0.0 Mbit/s")
  /\ format_upload (VInt (-2500000)) = Ok (txt "-2.5 Mbit/s")
  /\ format_upload (VFloat (Float.nearest true 25 10)) = Ok (txt "-0.0 Mbit/s")
  /\ format_upload (VFloat (Float.nearest false 93456789123 1000))
     = Ok (txt "93.46 Mbit/s")
  /\ format_upload (VInt 2675000) = Ok (txt "2.67 Mbit/s")
  /\ format_upload (VInt 125000) = Ok (txt "0.12 Mbit/s")
  /\ format_upload (VFloat (S754_infinity false)) = Ok (txt "inf Mbit/s")
  /\ format_upload (VFloat S754_nan) = Ok (txt "nan Mbit/s")
  /\ format_upload (VInt (10 ^ 30)) = Ok (txt "1e+24 Mbit/s").
Proof. repeat (split; [vm_compute; reflexivity|]). vm_compute. reflexivity. Qed.


(** ** The scenario of the specification *)

(** C1, as amended.  For the standard output "Testing..." followed by the
    line [{"download": 50000000, "upload": 10000000, "ping": 20.3}] and a
    new line, the line found is that line, it decodes to two integers and
    the float nearest to 20.3, and the normalized metrics are download
    "50.0 Mbit/s", upload "10.0 Mbit/s" and ping "20.0 ms" ([round] of a
    float is a float); they are the metrics of the response whenever the
    text generator answers. *)
Theorem C1_scenario (w : World) (ctx : value) (err : pystr) :
  json_output (scenario_process err) = Ok scenario_line
  /\ test_data_raw (decode_error w) scenario_line
     = Ok (VDict [(txt "download", VInt 50000000);
                  (txt "upload", VInt 10000000);
                  (txt "ping",
                   VFloat (S754_finite false 5713942027226317 (-48)))])
  /\ normalize scenario_raw ctx = Ok (scenario_metrics ctx)
  /\ after_process w ctx (scenario_process err)
     = (gemini_report <- generate_content w (prompt (scenario_metrics ctx)) ;;
        Ok {| status := 200;
              body := Success (scenario_metrics ctx) gemini_report |}).
Proof.
  assert (J : json_output (scenario_process err) = Ok scenario_line)
    by (vm_compute; reflexivity).
  assert (L : Json.loads scenario_line
              = Some (VDict [(txt "download", VInt 50000000);
                             (txt "upload", VInt 10000000);
                             (txt "ping",
                              VFloat (S754_finite false 5713942027226317
                                        (-48)))]))
    by (vm_compute; reflexivity).
  assert (T : test_data_raw (decode_error w) scenario_line
              = Ok (VDict [(txt "download", VInt 50000000);
                           (txt "upload", VInt 10000000);
                           (txt "ping",
                            VFloat (S754_finite false 5713942027226317
                                      (-48)))]))
    by (unfold test_data_raw; rewrite L; reflexivity).
  assert (R : raw_metrics
                (VDict [(txt "download", VInt 50000000);
                        (txt "upload", VInt 10000000);
                        (txt "ping",
                         VFloat (S754_finite false 5713942027226317 (-48)))])
              = Ok scenario_raw)
    by (vm_compute; reflexivity).
  assert (N : normalize scenario_raw ctx = Ok (scenario_metrics ctx))
    by (vm_compute; reflexivity).
  split; [exact J|]. split; [exact T|]. split; [exact N|].
  unfold after_process.
  change (returncode (scenario_process err)) with 0.
  cbn [Z.eqb negb]. rewrite J. cbn [bind]. rewrite T. cbn [bind].
  rewrite R. cbn [bind]. rewrite N. reflexivity.
Qed.

Example scenario_response :
  fst (run_test scenario_world)
  = {| status := 200;
       body := Success (scenario_metrics (VStr default_context))
                 (txt "<p>ok</p>") |}.
Proof. vm_compute. reflexivity. Qed.

(** C1 as stated fails: the ping of the scenario is not "20 ms". *)
Lemma C1_counterexample :
  metrics (fst (run_test scenario_world))
  <> Some (txt "50.0 Mbit/s", txt "10.0 Mbit/s", txt "20 ms").
Proof. vm_compute. discriminate. Qed.

(** ** Fields that are no numbers *)

Lemma mbit_non_numeric (v : value) :
  as_num v = None -> exists msg, mbit v = Raise (TypeError msg).
Proof.
  intros H. unfold mbit, truediv. rewrite H. cbn [bind]. eexists. reflexivity.
Qed.

Lemma format_download_non_numeric (v : value) :
  as_num v = None -> exists msg, format_download v = Raise (TypeError msg).
Proof.
  intros H. unfold format_download, le_float. rewrite H. cbn [bind].
  eexists. reflexivity.
Qed.

Lemma format_ping_non_numeric (v : value) :
  as_num v = None -> exists msg, format_ping v = Raise (TypeError msg).
Proof.
  intros H. unfold format_ping, gt_int. rewrite H. cbn [bind].
  eexists. reflexivity.
Qed.

Lemma normalize_non_numeric (raw : RawMetrics) (ctx : value) :
  as_num (raw_download_bits raw) = None
  \/ as_num (raw_upload_bits raw) = None
  \/ as_num (raw_ping_ms raw) = None ->
  exists cls msg, normalize raw ctx = Raise (OtherException cls msg).
Proof.
  intros H.
  assert (E : exists e, normalize raw ctx = Raise e).
  { unfold normalize, format_upload.
    destruct (mbit (raw_upload_bits raw)) as [u|e] eqn:U; cbn [bind];
      [|eexists; reflexivity].
    destruct (format_download (raw_download_bits raw)) as [dl|e] eqn:D;
      cbn [bind]; [|eexists; reflexivity].
    destruct (format_ping (raw_ping_ms raw)) as [pg|e] eqn:P;
      cbn [bind]; [|eexists; reflexivity].
    exfalso. destruct H as [H|[H|H]].
    - destruct (format_download_non_numeric _ H) as (m & Hm). congruence.
    - destruct (mbit_non_numeric _ H) as (m & Hm). congruence.
    - destruct (format_ping_non_numeric _ H) as (m & Hm). congruence. }
  destruct E as (e & He).
  pose proof (normalize_raises _ _ _ He) as O.
  destruct e; try discriminate O. eauto.
Qed.

Lemma raw_metrics_fields (d : dict) (raw : RawMetrics) :
  raw_metrics (VDict d) = Ok raw ->
  raw_download_bits raw = Dict.get d (txt "download") (VFloat zero_float)
  /\ raw_upload_bits raw = Dict.get d (txt "upload") (VFloat zero_float)
  /\ raw_ping_ms raw = Dict.get d (txt "ping") (VFloat zero_float).
Proof.
  intros H. inversion H. split; [reflexivity|]. split; reflexivity.
Qed.

(** C10.  When the line found decodes to an object in which [download],
    [upload] or [ping] is present with a value that is no number (a string,
    null, an array or an object; [true] and [false] are integers to Python),
    decoding succeeds, so no [ValueError] for the decoding is raised; the
    normalization raises an exception that is none of [CalledProcessError],
    [TimeoutExpired] and [ValueError], and the last [except] clause answers
    with its message and status 500. *)
Theorem C10_non_numeric_field (w : World) (ctx : value)
  (process : CompletedProcess) (line : pystr) (d : dict) (field : pystr)
  (v : value) :
  completes w ctx process ->
  returncode process = 0 ->
  json_output process = Ok line ->
  Json.loads line = Some (VDict d) ->
  In field [txt "download"; txt "upload"; txt "ping"] ->
  Dict.lookup d field = Some v ->
  as_num v = None ->
  test_data_raw (decode_error w) line = Ok (VDict d)
  /\ exists raw cls msg,
      raw_metrics (VDict d) = Ok raw
      /\ normalize raw ctx = Raise (OtherException cls msg)
      /\ clause_of (OtherException cls msg) = ExceptException
      /\ run_test w
         = ({| status := 500; body := Failure (unknown_error_message msg) |},
            Exited).
Proof.
  intros Hc Hrc Hj Hl Hf Hv Hn.
  assert (T : test_data_raw (decode_error w) line = Ok (VDict d))
    by (unfold test_data_raw; rewrite Hl; reflexivity).
  split; [exact T|].
  destruct (raw_metrics (VDict d)) as [raw|] eqn:R; [|discriminate R].
  assert (N : exists cls msg,
             normalize raw ctx = Raise (OtherException cls msg)).
  { apply normalize_non_numeric.
    destruct (raw_metrics_fields _ _ R) as (Fd & Fu & Fp).
    rewrite Fd, Fu, Fp. unfold Dict.get.
    destruct Hf as [<-|[<-|[<-|[]]]]; rewrite Hv; auto. }
  destruct N as (cls & msg & N).
  exists raw, cls, msg. split; [reflexivity|]. split; [exact N|].
  split; [reflexivity|].
  rewrite (run_test_completes _ _ _ Hc). unfold after_process.
  rewrite Hrc. cbn [Z.eqb negb]. rewrite Hj. cbn [bind]. rewrite T.
  cbn [bind]. rewrite R. cbn [bind]. rewrite N.
  unfold unknown_error_message. cbn [bind handle]. reflexivity.
Qed.

Lemma C10_witness :
  test_data_raw (decode_error text_field_world) text_field_line
  = Ok (VDict text_field_dict)
  /\ exists raw cls msg,
      raw_metrics (VDict text_field_dict) = Ok raw
      /\ normalize raw (VStr default_context) = Raise (OtherException cls msg)
      /\ clause_of (OtherException cls msg) = ExceptException
      /\ run_test text_field_world
         = ({| status := 500; body := Failure (unknown_error_message msg) |},
            Exited).
Proof.
  apply (C10_non_numeric_field text_field_world (VStr default_context)
           text_field_process text_field_line text_field_dict
           (txt "download") (VStr (txt "fast"))).
  - exists (VDict []). split; [reflexivity|]. split; vm_compute; reflexivity.
  - reflexivity.
  - vm_compute. reflexivity.
  - vm_compute. reflexivity.
  - left. reflexivity.
  - vm_compute. reflexivity.
  - reflexivity.
Defined.

Example text_field_response :
  fst (run_test text_field_world)
  = {| status := 500;
       body := Failure (txt "En uforutsett feil oppstod på serveren: '<=' not supported between instances of 'str' and 'float'") |}.
Proof. vm_compute. reflexivity. Qed.

(** A field that is [true] is an integer to Python and is formatted. *)
Example boolean_fields :
  format_download (VBool true) = Ok (txt "0.0 Mbit/s")
  /\ format_upload (VBool false) = Ok (txt "0.0 Mbit/s")
  /\ format_ping (VBool true) = Ok (txt "1 ms").
Proof. repeat split; vm_compute; reflexivity. Qed.

(* ================================================================== *)
(** * Further properties of the handler *)

(** ** The line that is found *)




(** ** Responses *)

Lemma after_process_ok (w : World) (user_ctx : value)
  (process : CompletedProcess) (r : Response) :
  after_process w user_ctx process = Ok r ->
  exists td a, r = {| status := 200; body := Success td a |}.
Proof.
  unfold after_process.
  destruct (negb (returncode process =? 0)); [discriminate|].
  intros H. bind_cases H. inv H. eauto.
Qed.

Lemma try_block_ok (w : World) (r : Response) (st : ChildState) :
  try_block w = (Ok r, st) ->
  exists td a, r = {| status := 200; body := Success td a |}.
Proof.
  unfold try_block.
  destruct (request_json w) as [data|e]; [|discriminate].
  destruct (user_context data) as [ctx|e]; [|discriminate].
  destruct (subprocess_run 30 (speedtest w)) as [[process|e] child];
    cbn [bind]; [|discriminate].
  intros H. injection H as H _. exact (after_process_ok _ _ _ _ H).
Qed.

(** X2.  Every response is either a success with status 200 or a failure
    with status 500; no exception leaves the handler and no other status is
    produced. *)
Theorem status_matches_body (w : World) :
  (is_success (fst (run_test w)) = true /\ status (fst (run_test w)) = 200)
  \/ (is_success (fst (run_test w)) = false
      /\ status (fst (run_test w)) = 500).
Proof.
  unfold run_test. destruct (try_block w) as [[r|e] st] eqn:T; cbn [fst].
  - destruct (try_block_ok _ _ _ T) as (td & a & ->). left. split; reflexivity.
  - right. split; [apply handle_fails | apply handle_status].
Qed.

(** X3.  A request whose body is no JSON object (or cannot be read at all)
    is answered with a failure before the measurement is started: the body
    has no [get], the last [except] clause answers, and no child is ever
    spawned. *)
Theorem bad_request_starts_nothing (w : World) :
  (forall d, request_json w <> Ok (VDict d)) ->
  run_test w
  = (match request_json w with
     | Ok data =>
         {| status := 500;
            body := Failure (unknown_error_message (no_get_message data)) |}
     | Raise e => handle e
     end, NotSpawned).
Proof.
  intros H. unfold run_test, try_block.
  destruct (request_json w) as [data|e]; [|reflexivity].
  unfold unknown_error_message, no_get_message.
  destruct data;
    try (unfold user_context, AttributeError; cbn [handle]; reflexivity).
  exfalso. apply (H d). reflexivity.
Qed.

Lemma after_process_measured (w : World) (user_ctx : value)
  (process : CompletedProcess) (line : pystr) (d : dict) (raw : RawMetrics)
  (td : TestData) :
  returncode process = 0 ->
  json_output process = Ok line ->
  Json.loads line = Some (VDict d) ->
  raw_metrics (VDict d) = Ok raw ->
  normalize raw user_ctx = Ok td ->
  after_process w user_ctx process
  = (gemini_report <- generate_content w (prompt td) ;;
     Ok {| status := 200; body := Success td gemini_report |}).
Proof.
  intros Hrc Hj Hl Hr Hn. unfold after_process.
  rewrite Hrc. cbn [Z.eqb negb]. rewrite Hj. cbn [bind].
  unfold test_data_raw. rewrite Hl. cbn [bind]. rewrite Hr. cbn [bind].
  rewrite Hn. reflexivity.
Qed.

Lemma run_test_measured (w : World) (td : TestData) :
  measured w td ->
  run_test w
  = (match generate_content w (prompt td) with
     | Ok a => {| status := 200; body := Success td a |}
     | Raise e => handle e
     end, Exited).
Proof.
  intros (ctx & process & line & d & raw & Hc & Hrc & Hj & Hl & Hr & Hn).
  rewrite (run_test_completes _ _ _ Hc).
  rewrite (after_process_measured w ctx process line d raw td Hrc Hj Hl Hr Hn).
  destruct (generate_content w (prompt td)); reflexivity.
Qed.

(** X4.  When the measurement went through and the text generator raises,
    the exception is answered by the same four [except] clauses: the
    response is the one of its clause and the child has exited.  In
    particular a [ValueError] of the generator is reported under the
    heading of the Speedtest results. *)
Theorem generator_failure (w : World) (td : TestData) (e : exc) :
  measured w td ->
  generate_content w (prompt td) = Raise e ->
  run_test w = (handle e, Exited)
  /\ (forall msg,
        e = ValueError msg ->
        message (fst (run_test w))
        = txt "Serverfeil ved behandling av Speedtest-resultater: " ++ msg).
Proof.
  intros Hm Hg.
  assert (Hr : run_test w = (handle e, Exited))
    by (rewrite (run_test_measured _ _ Hm), Hg; reflexivity).
  split; [exact Hr|].
  intros msg ->. rewrite Hr. reflexivity.
Qed.

(** ** What a brace line decodes to *)

Lemma object_loop_dict (fuel : nat) (s : pystr) (acc : dict) (v : value)
  (rest : pystr) :
  Json.object_loop fuel s acc = Some (v, rest) -> is_dict v = true.
Proof.
  revert s acc. induction fuel as [|fuel IH]; intros s acc; [discriminate|].
  cbn [Json.object_loop].
  destruct s as [|c s']; [discriminate|].
  destruct (N.eq_dec c 34) as [->|Hc].
  2:{ destruct c as [|p]; [discriminate|].
      repeat (destruct p as [p|p|]; try discriminate).
      exfalso. apply Hc. reflexivity. }
  destruct (Json.scanstring (S (List.length s')) s' []) as [[key s1]|];
    [|discriminate].
  destruct (Json.skip_ws s1) as [|c1 s2]; [discriminate|].
  destruct (N.eq_dec c1 58) as [->|Hc1].
  2:{ destruct c1 as [|p]; [discriminate|].
      repeat (destruct p as [p|p|]; try discriminate).
      exfalso. apply Hc1. reflexivity. }
  destruct (Json.scan_once fuel (Json.skip_ws s2)) as [[v' s3]|];
    [|discriminate].
  destruct (Json.skip_ws s3) as [|c3 s4]; [discriminate|].
  destruct (N.eq_dec c3 125) as [->|H125].
  - intros H. injection H as <- _. reflexivity.
  - destruct (N.eq_dec c3 44) as [->|H44].
    + apply IH.
    + destruct c3 as [|p]; [discriminate|].
      repeat (destruct p as [p|p|]; try discriminate);
        exfalso; first [apply H125; reflexivity | apply H44; reflexivity].
Qed.

Lemma scan_once_brace_dict (fuel : nat) (s : pystr) (v : value)
  (rest : pystr) :
  Json.scan_once (S fuel) (123%N :: s) = Some (v, rest) -> is_dict v = true.
Proof.
  cbn [Json.scan_once].
  destruct (Json.skip_ws s) as [|c1 s1]; [apply object_loop_dict|].
  destruct c1 as [|p]; [apply object_loop_dict|].
  repeat (destruct p as [p|p|]; try apply object_loop_dict).
  intros H. injection H as <- _. reflexivity.
Qed.

Lemma loads_brace_dict (line : pystr) (v : value) :
  Text.startswith line (txt "{") = true ->
  Json.loads line = Some v -> is_dict v = true.
Proof.
  intros Hb. destruct line as [|c line']; [discriminate|].
  change (Text.startswith (c :: line') (txt "{"))
    with ((123 =? c)%N && true) in Hb.
  rewrite andb_true_r in Hb. apply N.eqb_eq in Hb. subst c.
  unfold Json.loads.
  change (Json.skip_ws (123%N :: line')) with (123%N :: line').
  replace (2 * List.length (123%N :: line') + 2)%nat
    with (S (2 * List.length (123%N :: line') + 1)) by lia.
  destruct (Json.scan_once _ (123%N :: line')) as [[v0 rest]|] eqn:O;
    [|discriminate].
  pose proof (scan_once_brace_dict _ _ _ _ O) as D.
  destruct (Json.skip_ws rest); [|discriminate].
  intros H. injection H as <-. exact D.
Qed.

(** ** The shape of the line that is found *)

Lemma lstrip_head (s : pystr) :
  match Text.lstrip s with
  | [] => True
  | c :: _ => Text.isspace c = false
  end.
Proof.
  induction s as [|c s IH]; simpl; [exact I|].
  destruct (Text.isspace c) eqn:E; [exact IH | exact E].
Qed.

Lemma lstrip_fixed (s : pystr) :
  match s with
  | [] => True
  | c :: _ => Text.isspace c = false
  end -> Text.lstrip s = s.
Proof. destruct s as [|c s]; simpl; [reflexivity|]. now intros ->. Qed.

(** Stripping on the left takes a run of white space off the front. *)
Lemma lstrip_decomp (s : pystr) :
  exists w, space w /\ s = w ++ Text.lstrip s.
Proof.
  induction s as [|c s (w & Hw & IH)]; [exists []; split; [constructor | reflexivity]|].
  simpl. destruct (Text.isspace c) eqn:E.
  - exists (c :: w). split; [now constructor|]. simpl. now rewrite <- IH.
  - exists []. split; [constructor | reflexivity].
Qed.

Lemma rstrip_decomp (s : pystr) :
  exists w, space w /\ s = Text.rstrip s ++ w.
Proof.
  unfold Text.rstrip. destruct (lstrip_decomp (rev s)) as (w & Hw & E).
  exists (rev w). split; [now apply Forall_rev|].
  rewrite <- rev_app_distr, <- E. symmetry. apply rev_involutive.
Qed.

Lemma rstrip_idem (s : pystr) : Text.rstrip (Text.rstrip s) = Text.rstrip s.
Proof. unfold Text.rstrip. now rewrite rev_involutive, lstrip_idem. Qed.

Lemma strip_idem (s : pystr) : Text.strip (Text.strip s) = Text.strip s.
Proof.
  unfold Text.strip.
  assert (L : Text.lstrip (Text.rstrip (Text.lstrip s))
              = Text.rstrip (Text.lstrip s)).
  { apply lstrip_fixed.
    destruct (rstrip_decomp (Text.lstrip s)) as (w & _ & E).
    pose proof (lstrip_head s) as H.
    destruct (Text.rstrip (Text.lstrip s)) as [|c r]; [exact I|].
    rewrite E in H. exact H. }
  rewrite L. apply rstrip_idem.
Qed.

Lemma last_in (A : Type) (l : list A) (d : A) : l <> [] -> In (last l d) l.
Proof.
  induction l as [|x l IH]; [congruence|]. intros _.
  destruct l as [|y l]; [now left|].
  right. apply IH. discriminate.
Qed.

Lemma json_output_candidate (process : CompletedProcess) (line : pystr) :
  json_output process = Ok line ->
  In line (candidates (Text.splitlines (stdout process))).
Proof.
  unfold json_output. rewrite json_output_last.
  destruct (candidates (Text.splitlines (stdout process))) as [|c cs] eqn:E.
  - cbn [last Text.truthy negb]. discriminate.
  - destruct (negb _); [discriminate|]. intros H. injection H as <-.
    exact (last_in pystr (c :: cs) [] ltac:(discriminate)).
Qed.

(** X5.  The text handed to [json.loads] is one of the lines of the
    captured output with the white space at its ends removed: it starts
    with a brace and stripping it again changes nothing.  So whatever
    decodes from it is an object, and reading the three fields with
    [get] cannot fail. *)
Theorem found_line_is_object (process : CompletedProcess) (line : pystr) :
  json_output process = Ok line ->
  Text.startswith line (txt "{") = true
  /\ Text.strip line = line
  /\ (exists l, In l (Text.splitlines (stdout process))
                /\ line = Text.strip l)
  /\ (forall v, Json.loads line = Some v ->
                exists d raw, v = VDict d /\ raw_metrics v = Ok raw).
Proof.
  intros H. pose proof (json_output_candidate _ _ H) as C.
  unfold candidates in C. apply in_map_iff in C.
  destruct C as (l & <- & Hl). apply filter_In in Hl. destruct Hl as [Hin Hq].
  split; [exact Hq|]. split; [apply strip_idem|].
  split; [exists l; split; [exact Hin | reflexivity]|].
  intros v Hv. pose proof (loads_brace_dict _ _ Hq Hv) as D.
  destruct v; try discriminate D. eexists. eexists. split; reflexivity.
Qed.

Lemma found_line_is_object_witness :
  Text.startswith (txt "{second}") (txt "{") = true
  /\ Text.strip (txt "{second}") = txt "{second}"
  /\ (exists l, In l (Text.splitlines (stdout (finished 0 two_brace_lines [])))
                /\ txt "{second}" = Text.strip l)
  /\ (forall v, Json.loads (txt "{second}") = Some v ->
                exists d raw, v = VDict d /\ raw_metrics v = Ok raw).
Proof.
  apply (found_line_is_object (finished 0 two_brace_lines []) (txt "{second}")).
  vm_compute. reflexivity.
Defined.

(** ** Success *)





(** ** The child *)

(** X7.  The child is killed only by the deadline: when it is left killed,
    the request had been read, the child was still running after 30
    seconds, and the response is the timeout failure. *)
Theorem killed_only_by_deadline (w : World) :
  snd (run_test w) = Killed ->
  fst (run_test w) = {| status := 500; body := Failure timeout_message |}
  /\ running_after 30 (speedtest w) = true
  /\ exists data user_ctx,
      request_json w = Ok data /\ user_context data = Ok user_ctx.
Proof.
  unfold run_test, try_block.
  destruct (request_json w) as [data|e] eqn:Hreq; [|discriminate].
  destruct (user_context data) as [ctx|e] eqn:Hctx; [|discriminate].
  assert (X : exists data0 user_ctx,
             Ok data = Ok data0 /\ user_context data0 = Ok user_ctx)
    by (exists data, ctx; split; [reflexivity | exact Hctx]).
  destruct (speedtest w) as [e|t r|out err]; cbn [subprocess_run running_after].
  - discriminate.
  - destruct (Qle_bool t 30); cbn [bind snd fst negb]; [discriminate|].
    intros _. unfold timeout_message. cbn [handle].
    split; [reflexivity|]. split; [reflexivity|]. exact X.
  - intros _. unfold timeout_message. cbn [bind fst handle].
    split; [reflexivity|]. split; [reflexivity|]. exact X.
Qed.

Lemma killed_only_by_deadline_witness :
  fst (run_test hanging_world)
  = {| status := 500; body := Failure timeout_message |}
  /\ running_after 30 (speedtest hanging_world) = true
  /\ exists data user_ctx,
      request_json hanging_world = Ok data
      /\ user_context data = Ok user_ctx.
Proof.
  apply (killed_only_by_deadline hanging_world). reflexivity.
Defined.

(** ** More on the normalization *)

(** X8.  The normalization has a result for every triple of numbers in
    which an integer download or upload has a quotient by a million within
    the floats; floats of any value (infinities and NaN included) and
    integer pings of any size never make it fail. *)
Theorem normalize_total (raw : RawMetrics) (user_ctx : value)
  (nd nu np : num) :
  as_num (raw_download_bits raw) = Some nd ->
  as_num (raw_upload_bits raw) = Some nu ->
  as_num (raw_ping_ms raw) = Some np ->
  in_range nd -> in_range nu ->
  exists td, normalize raw user_ctx = Ok td.
Proof.
  intros Hd Hu Hp Rd Ru. unfold normalize, format_upload.
  destruct (mbit_total _ _ Hu Ru) as (qu & ru & _ & _ & Eu).
  rewrite Eu. cbn [bind].
  assert (D : exists s, format_download (raw_download_bits raw) = Ok s).
  { unfold format_download, le_float. rewrite Hd. cbn [bind].
    destruct (Float.xle _ _); [eexists; reflexivity|].
    destruct (mbit_total _ _ Hd Rd) as (q & r & _ & _ & E).
    rewrite E. eexists. reflexivity. }
  destruct D as (sd & D). rewrite D. cbn [bind].
  assert (P : exists s, format_ping (raw_ping_ms raw) = Ok s).
  { rewrite (ping_guard _ _ Hp).
    destruct (ping_rejected np) eqn:G; [eexists; reflexivity|].
    destruct (round_accepted_ping _ _ Hp G) as (r & Hr).
    rewrite Hr. eexists. reflexivity. }
  destruct P as (sp & P). rewrite P. cbn [bind]. eexists. reflexivity.
Qed.

Lemma normalize_total_witness :
  exists td, normalize scenario_raw (VStr default_context) = Ok td.
Proof.
  apply (normalize_total scenario_raw (VStr default_context)
           (NInt 50000000) (NInt 10000000)
           (NFloat (S754_finite false 5713942027226317 (-48))));
    try reflexivity; vm_compute; reflexivity.
Defined.

(** X9.  Whatever the raw values are, a result of the normalization holds
    texts of fixed shapes only: the upload ends with " Mbit/s", the
    download is "Utilgjengelig" or ends with " Mbit/s", the ping is
    "Feil/For høy" or ends with " ms", and the context is the caller's. *)
Theorem normalized_shapes (raw : RawMetrics) (user_ctx : value)
  (td : TestData) :
  normalize raw user_ctx = Ok td ->
  (exists r, upload td = Float.repr r ++ txt " Mbit/s")
  /\ (download td = download_sentinel
      \/ exists r, download td = Float.repr r ++ txt " Mbit/s")
  /\ (ping td = ping_sentinel
      \/ exists n, ping td = str_num n ++ txt " ms")
  /\ context td = user_ctx.
Proof.
  intros H. pose proof (normalize_context _ _ _ H) as C.
  destruct (normalize_fields _ _ _ H) as (U & D & P).
  split.
  { destruct (mbit_shape _ _ U) as (q & r & _ & _ & E). eauto. }
  split.
  { unfold format_download in D.
    destruct (le_float (raw_download_bits raw) zero_float) as [c|];
      [|discriminate D]. cbn [bind] in D. destruct c.
    - left. now injection D as <-.
    - right. destruct (mbit_shape _ _ D) as (q & r & _ & _ & E). eauto. }
  split; [|exact C].
  unfold format_ping in P.
  destruct (gt_int (raw_ping_ms raw) 10000) as [g|]; [|discriminate P].
  cbn [bind] in P.
  destruct (if g then Ok true else le_float (raw_ping_ms raw) zero_float)
    as [c|]; [|discriminate P].
  cbn [bind] in P. destruct c.
  - left. now injection P as <-.
  - right. destruct (round (raw_ping_ms raw) 0) as [n|]; [|discriminate P].
    cbn [bind] in P. exists n. now injection P as <-.
Qed.

Lemma normalized_shapes_witness :
  (exists r, upload (scenario_metrics VNone) = Float.repr r ++ txt " Mbit/s")
  /\ (download (scenario_metrics VNone) = download_sentinel
      \/ exists r, download (scenario_metrics VNone)
                   = Float.repr r ++ txt " Mbit/s")
  /\ (ping (scenario_metrics VNone) = ping_sentinel
      \/ exists n, ping (scenario_metrics VNone) = str_num n ++ txt " ms")
  /\ context (scenario_metrics VNone) = VNone.
Proof.
  apply (normalized_shapes scenario_raw VNone (scenario_metrics VNone)).
  vm_compute. reflexivity.
Defined.

(** X10.  For an integer the guards compare exactly: an integer ping is
    rejected when it is at most 0 or more than 10000 and is otherwise
    printed as it is, without a decimal point; an integer download is
    rejected exactly when it is at most 0. *)
Theorem integer_metrics (z : Z) :
  format_ping (VInt z)
  = (if (10000 <? z) || (z <=? 0) then Ok ping_sentinel
     else Ok (Text.of_Z z ++ txt " ms"))
  /\ format_download (VInt z)
     = (if z <=? 0 then Ok download_sentinel else mbit (VInt z)).
Proof.
  assert (L : Float.xle (Float.of_int z) (Float.of_float zero_float)
              = (z <=? 0)).
  { unfold Float.xle, Float.xlt, Float.xeq, Float.of_int, Float.of_float,
      zero_float. rewrite !Z.mul_1_r.
    destruct (Z.leb_spec z 0) as [H|H].
    - destruct (Z.ltb_spec z 0), (Z.eqb_spec z 0); try reflexivity; lia.
    - destruct (Z.ltb_spec z 0), (Z.eqb_spec z 0); try reflexivity; lia. }
  assert (G : Float.xgt (Float.of_int z) (Float.of_int 10000) = (10000 <? z)).
  { unfold Float.xgt, Float.xlt, Float.of_int. now rewrite !Z.mul_1_r. }
  split.
  - rewrite (ping_guard (VInt z) (NInt z) eq_refl).
    unfold ping_rejected. cbn [exact]. rewrite L, G.
    destruct ((10000 <? z) || (z <=? 0)); [reflexivity|].
    unfold round. cbn [as_num Z.leb Z.compare bind str_num]. reflexivity.
  - unfold format_download, le_float. cbn [as_num exact bind].
    rewrite L. reflexivity.
Qed.

(** X11.  The fields are formatted in the order upload, download, ping,
    and the first one that is no number decides the failure: the
    [TypeError] of the division for the upload; with a good upload, the
    [TypeError] of [<=] for the download; with both good, the [TypeError]
    of [>] for the ping. *)
Theorem first_bad_field_decides (raw : RawMetrics) (user_ctx : value) :
  (as_num (raw_upload_bits raw) = None ->
   normalize raw user_ctx
   = Raise (TypeError (txt "unsupported operand type(s) for /: "
                         ++ quote (type_name (raw_upload_bits raw))
                         ++ txt " and 'int'")))
  /\ (forall nu,
        as_num (raw_upload_bits raw) = Some nu -> in_range nu ->
        as_num (raw_download_bits raw) = None ->
        normalize raw user_ctx
        = Raise (TypeError (txt "'<=' not supported between instances of "
                              ++ quote (type_name (raw_download_bits raw))
                              ++ txt " and 'float'")))
  /\ (forall nu nd,
        as_num (raw_upload_bits raw) = Some nu -> in_range nu ->
        as_num (raw_download_bits raw) = Some nd -> in_range nd ->
        as_num (raw_ping_ms raw) = None ->
        normalize raw user_ctx
        = Raise (TypeError (txt "'>' not supported between instances of "
                              ++ quote (type_name (raw_ping_ms raw))
                              ++ txt " and 'int'"))).
Proof.
  split; [|split].
  - intros H. unfold normalize, format_upload, mbit, truediv. rewrite H.
    reflexivity.
  - intros nu Hu Ru Hd. unfold normalize, format_upload.
    destruct (mbit_total _ _ Hu Ru) as (q & r & _ & _ & E).
    rewrite E. cbn [bind]. unfold format_download, le_float. rewrite Hd.
    reflexivity.
  - intros nu nd Hu Ru Hd Rd Hp. unfold normalize, format_upload.
    destruct (mbit_total _ _ Hu Ru) as (q & r & _ & _ & E).
    rewrite E. cbn [bind].
    assert (D : exists s, format_download (raw_download_bits raw) = Ok s).
    { unfold format_download, le_float. rewrite Hd. cbn [bind].
      destruct (Float.xle _ _); [eexists; reflexivity|].
      destruct (mbit_total _ _ Hd Rd) as (q' & r' & _ & _ & E').
      rewrite E'. eexists. reflexivity. }
    destruct D as (sd & D). rewrite D. cbn [bind].
    unfold format_ping, gt_int. rewrite Hp. reflexivity.
Qed.

(** ** Output that goes on after a line *)

Lemma splitlines_nonempty (c : N) (s : pystr) : Text.splitlines (c :: s) <> [].
Proof.
  simpl. destruct (Text.islinebreak c).
  - destruct c as [|p]; [discriminate|].
    repeat (destruct p as [p|p|]; try discriminate).
    destruct s as [|b s]; [discriminate|].
    destruct b as [|q]; [discriminate|].
    repeat (destruct q as [q|q|]; try discriminate).
  - destruct (Text.splitlines s); discriminate.
Qed.

Lemma prepend_app (a : N) (l1 l2 : list pystr) :
  l1 <> [] -> prepend a (l1 ++ l2) = prepend a l1 ++ l2.
Proof. destruct l1; [congruence | reflexivity]. Qed.

Lemma splitlines_cons_break (a : N) (s : pystr) :
  Text.islinebreak a = true ->
  (a <> 13%N \/ match s with 10%N :: _ => False | _ => True end) ->
  Text.splitlines (a :: s) = [] :: Text.splitlines s.
Proof.
  intros Ha H. cbn [Text.splitlines]. rewrite Ha.
  destruct H as [H|H].
  - destruct a as [|p]; [reflexivity|].
    repeat (destruct p as [p|p|]; try reflexivity).
    exfalso. apply H. reflexivity.
  - destruct a as [|p]; [reflexivity|].
    repeat (destruct p as [p|p|]; try reflexivity).
    destruct s as [|b s]; [reflexivity|].
    destruct b as [|q]; [reflexivity|].
    repeat (destruct q as [q|q|]; try reflexivity).
    destruct H.
Qed.

(** The lines of a text that goes on after a new line are the lines of
    the first part, possibly a blank line, and the lines of the rest. *)
Lemma splitlines_app_newline (n : nat) (s t : pystr) :
  (List.length s <= n)%nat ->
  exists blank,
    (blank = [] \/ blank = [[]])
    /\ Text.splitlines (s ++ 10%N :: t)
       = Text.splitlines s ++ blank ++ Text.splitlines t.
Proof.
  revert s. induction n as [|n IH]; intros s Hn.
  - destruct s; [|simpl in Hn; lia].
    exists [[]]. split; [now right | reflexivity].
  - destruct s as [|a s]; [apply (IH []); simpl; lia|]. simpl in Hn.
    destruct (Text.islinebreak a) eqn:Ea.
    + destruct (N.eq_dec a 13) as [->|Ha].
      * destruct s as [|b s].
        -- exists []. split; [now left | reflexivity].
        -- destruct (N.eq_dec b 10) as [->|Hb].
           ++ destruct (IH s ltac:(simpl in Hn; lia)) as (bl & Hbl & E).
              exists bl. split; [exact Hbl|].
              change (Text.splitlines ((13%N :: 10%N :: s) ++ 10%N :: t))
                with ([] :: Text.splitlines (s ++ 10%N :: t)).
              change (Text.splitlines (13%N :: 10%N :: s))
                with ([] :: Text.splitlines s).
              rewrite E. reflexivity.
           ++ destruct (IH (b :: s) ltac:(simpl in *; lia)) as (bl & Hbl & E).
              exists bl. split; [exact Hbl|].
              change ((13%N :: b :: s) ++ 10%N :: t)
                with (13%N :: (b :: s) ++ 10%N :: t).
              rewrite (splitlines_cons_break 13 ((b :: s) ++ 10%N :: t) Ea).
              ** rewrite (splitlines_cons_break 13 (b :: s) Ea).
                 --- rewrite E. reflexivity.
                 --- right. destruct b as [|q]; [exact I|].
                     repeat (destruct q as [q|q|]; try exact I).
                     apply Hb. reflexivity.
              ** right. simpl. destruct b as [|q]; [exact I|].
                 repeat (destruct q as [q|q|]; try exact I).
                 apply Hb. reflexivity.
      * destruct (IH s ltac:(lia)) as (bl & Hbl & E).
        exists bl. split; [exact Hbl|].
        change ((a :: s) ++ 10%N :: t) with (a :: s ++ 10%N :: t).
        rewrite (splitlines_cons_break a (s ++ 10%N :: t) Ea (or_introl Ha)).
        rewrite (splitlines_cons_break a s Ea (or_introl Ha)).
        rewrite E. reflexivity.
    + change ((a :: s) ++ 10%N :: t) with (a :: s ++ 10%N :: t).
      rewrite !splitlines_cons_other by exact Ea.
      destruct s as [|b s].
      * exists []. split; [now left|]. reflexivity.
      * destruct (IH (b :: s) ltac:(simpl in *; lia)) as (bl & Hbl & E).
        exists bl. split; [exact Hbl|].
        rewrite E. apply prepend_app. apply splitlines_nonempty.
Qed.

Lemma candidates_app_newline (s t : pystr) :
  candidates (Text.splitlines (s ++ 10%N :: t))
  = candidates (Text.splitlines s) ++ candidates (Text.splitlines t).
Proof.
  destruct (splitlines_app_newline (List.length s) s t (le_n _))
    as (bl & Hbl & E).
  rewrite E, !candidates_app. destruct Hbl as [->| ->]; reflexivity.
Qed.

Lemma candidates_exists (lines : list pystr) :
  existsb is_json_line lines = false -> candidates lines = [].
Proof.
  intros H. apply candidates_none. intros l Hl.
  destruct (is_json_line l) eqn:E; [|reflexivity].
  assert (existsb is_json_line lines = true)
    by (apply existsb_exists; now exists l).
  congruence.
Qed.

Lemma candidates_exists_some (lines : list pystr) :
  existsb is_json_line lines = true -> candidates lines <> [].
Proof.
  intros H. apply existsb_exists in H. destruct H as (l & Hl & Hq).
  unfold candidates. intros E.
  assert (In (Text.strip l) (map Text.strip (filter is_json_line lines)))
    by (apply in_map, filter_In; now split).
  rewrite E in H. destruct H.
Qed.

Lemma json_output_ok (process : CompletedProcess) :
  candidates (Text.splitlines (stdout process)) <> [] ->
  json_output process
  = Ok (last (candidates (Text.splitlines (stdout process))) []).
Proof.
  intros H. unfold json_output. rewrite json_output_last.
  assert (T : Text.truthy
                (last (candidates (Text.splitlines (stdout process))) [])
              = true).
  { apply (candidates_truthy (Text.splitlines (stdout process))).
    now apply last_in. }
  rewrite T. reflexivity.
Qed.

Lemma last_app_nonempty (A : Type) (l1 l2 : list A) (d : A) :
  l2 <> [] -> last (l1 ++ l2) d = last l2 d.
Proof.
  intros H. induction l1 as [|x l1 IH]; [reflexivity|].
  cbn [app]. rewrite <- IH.
  destruct (l1 ++ l2) eqn:E; [|reflexivity].
  apply app_eq_nil in E. destruct E. congruence.
Qed.

(** X12.  Output that goes on after a new line takes precedence when it
    has a brace line and is ignored when it has none: the line found in
    [s], a new line and [t] is the one found in [t] alone if [t] has a
    brace line, and otherwise the one found in [s] alone if [s] has
    one. *)
Theorem later_lines_first (code : Z) (err s t : pystr) :
  (existsb is_json_line (Text.splitlines t) = true ->
   json_output (finished code (s ++ nl ++ t) err)
   = json_output (finished code t err))
  /\ (existsb is_json_line (Text.splitlines t) = false ->
      existsb is_json_line (Text.splitlines s) = true ->
      json_output (finished code (s ++ nl ++ t) err)
      = json_output (finished code s err)).
Proof.
  assert (C : candidates (Text.splitlines (s ++ nl ++ t))
              = candidates (Text.splitlines s)
                ++ candidates (Text.splitlines t))
    by apply candidates_app_newline.
  split.
  - intros Ht. pose proof (candidates_exists_some _ Ht) as N.
    rewrite !json_output_ok; cbn [stdout finished].
    + rewrite C. f_equal. now apply last_app_nonempty.
    + exact N.
    + rewrite C. intros E. apply app_eq_nil in E. tauto.
  - intros Ht Hs. pose proof (candidates_exists_some _ Hs) as N.
    rewrite !json_output_ok; cbn [stdout finished].
    + rewrite C, (candidates_exists _ Ht), app_nil_r. reflexivity.
    + exact N.
    + rewrite C, (candidates_exists _ Ht), app_nil_r. exact N.
Qed.

Lemma later_lines_first_witness :
  json_output
    (finished 0 (txt "{first}" ++ nl ++ txt "noise" ++ nl ++ txt "{second}") [])
  = json_output (finished 0 (txt "noise" ++ nl ++ txt "{second}") []).
Proof.
  apply (proj1 (later_lines_first 0 [] (txt "{first}")
                  (txt "noise" ++ nl ++ txt "{second}"))).
  vm_compute. reflexivity.
Defined.

Lemma first_bad_field_decides_witness :
  normalize (numeric_raw VNone (VInt 10000000) (VStr (txt "fast"))) VNone
  = Raise (TypeError (txt "'<=' not supported between instances of "
                        ++ quote (type_name VNone) ++ txt " and 'float'")).
Proof.
  apply (proj1 (proj2 (first_bad_field_decides
                         (numeric_raw VNone (VInt 10000000)
                            (VStr (txt "fast"))) VNone))
           (NInt 10000000)).
  - reflexivity.
  - vm_compute. reflexivity.
  - reflexivity.
Defined.

Lemma bad_request_starts_nothing_witness :
  run_test null_body_world
  = ({| status := 500;
        body := Failure (unknown_error_message (no_get_message VNone)) |},
     NotSpawned).
Proof.
  apply (bad_request_starts_nothing null_body_world).
  intros d. discriminate.
Defined.

Lemma generator_failure_witness :
  run_test refusing_world
  = (handle (ValueError (txt "Missing key inputs argument!")), Exited)
  /\ (forall msg,
        ValueError (txt "Missing key inputs argument!") = ValueError msg ->
        message (fst (run_test refusing_world))
        = txt "Serverfeil ved behandling av Speedtest-resultater: " ++ msg).
Proof.
  apply (generator_failure refusing_world
           (scenario_metrics (VStr default_context))).
  - exists (VStr default_context), (scenario_process []), scenario_line,
      [(txt "download", VInt 50000000); (txt "upload", VInt 10000000);
       (txt "ping", VFloat (S754_finite false 5713942027226317 (-48)))],
      scenario_raw.
    split; [exists (VDict []); split; [reflexivity|]; split; vm_compute; reflexivity|].
    split; [reflexivity|].
    split; [vm_compute; reflexivity|].
    split; [vm_compute; reflexivity|].
    split; vm_compute; reflexivity.
  - reflexivity.
Defined.

(** ** Headings and the standard error *)

(** X13.  The four failure messages start differently, so the response
    alone tells which [except] clause answered. *)
Theorem response_tells_clause (e1 e2 : exc) :
  handle e1 = handle e2 -> clause_of e1 = clause_of e2.
Proof.
  intros H.
  assert (F : hd 0%N (message (handle e1)) = hd 0%N (message (handle e2)))
    by (rewrite H; reflexivity).
  destruct e1, e2; try reflexivity; vm_compute in F; discriminate F.
Qed.

Lemma response_tells_clause_witness :
  clause_of (ValueError (txt "x")) = clause_of (ValueError (txt "x")).
Proof.
  apply (response_tells_clause (ValueError (txt "x")) (ValueError (txt "x"))).
  reflexivity.
Defined.

(** X14.  Once the child has exited with status 0 and its output has a
    brace line, the standard error plays no part: the result is the same
    for every standard error. *)
Theorem stderr_unused_on_success_path (w : World) (user_ctx : value)
  (out err1 err2 : pystr) :
  existsb is_json_line (Text.splitlines out) = true ->
  after_process w user_ctx (finished 0 out err1)
  = after_process w user_ctx (finished 0 out err2).
Proof.
  intros H. pose proof (candidates_exists_some _ H) as N.
  unfold after_process. cbn [returncode finished Z.eqb negb].
  rewrite (json_output_ok (finished 0 out err1)) by exact N.
  rewrite (json_output_ok (finished 0 out err2)) by exact N.
  reflexivity.
Qed.

Lemma stderr_unused_on_success_path_witness :
  after_process scenario_world VNone
    (finished 0 scenario_stdout (txt "warning"))
  = after_process scenario_world VNone (finished 0 scenario_stdout []).
Proof.
  apply (stderr_unused_on_success_path scenario_world VNone scenario_stdout
           (txt "warning") []).
  vm_compute. reflexivity.
Defined.

(** ** Rounding of the ping *)

(** A positive integer below [2^53] is a binary64 value. *)
Lemma nearest_small_int (s : bool) (k : Z) :
  0 < k < 2 ^ 53 ->
  exists m e,
    Float.nearest s k 1 = S754_finite s m e
    /\ Float.mag_num m e = k * Float.mag_den e.
Proof.
  intros Hk.
  pose proof (Z.log2_spec k ltac:(lia)) as L.
  pose proof (Z.log2_nonneg k) as L0.
  assert (L52 : Z.log2 k <= 52).
  { assert (Z.log2 k < 53) by (apply Z.log2_lt_pow2; lia). lia. }
  set (l := Z.log2 k) in *.
  assert (Hsh : shift_of k 1 = l + 1022).
  { unfold shift_of. rewrite Z.div_1_r. unfold Float.digits2.
    assert (P : 0 < 2 ^ 1074) by (apply Z.pow_pos_nonneg; lia).
    destruct (k * 2 ^ 1074 =? 0) eqn:E; [apply Z.eqb_eq in E; nia|].
    rewrite Z.log2_mul_pow2 by lia. fold l. lia. }
  assert (P1 : 0 < 2 ^ (l + 1022)) by (apply Z.pow_pos_nonneg; lia).
  assert (P2 : 0 < 2 ^ (52 - l)) by (apply Z.pow_pos_nonneg; lia).
  assert (X : 2 ^ 1074 = 2 ^ (52 - l) * 2 ^ (l + 1022))
    by (rewrite <- Z.pow_add_r by lia; f_equal; lia).
  assert (Hm : mantissa_of k 1 = k * 2 ^ (52 - l)).
  { unfold mantissa_of. rewrite Hsh, Z.mul_1_l. unfold Float.rhe.
    replace (k * 2 ^ 1074) with ((k * 2 ^ (52 - l)) * 2 ^ (l + 1022))
      by (rewrite X; ring).
    rewrite Z.mod_mul by lia. rewrite Z.div_mul by lia.
    destruct (2 * 0 ?= 2 ^ (l + 1022)) eqn:C.
    - apply Z.compare_eq in C. lia.
    - reflexivity.
    - apply Z.compare_gt_iff in C. lia. }
  assert (B : 2 ^ 52 <= k * 2 ^ (52 - l) < 2 ^ 53).
  { assert (Y : 2 ^ 52 = 2 ^ l * 2 ^ (52 - l))
      by (rewrite <- Z.pow_add_r by lia; f_equal; lia).
    assert (Y' : 2 ^ 53 = 2 ^ Z.succ l * 2 ^ (52 - l))
      by (rewrite <- Z.pow_add_r by lia; f_equal; lia).
    rewrite Y, Y'. nia. }
  assert (Q52 : 0 < (2:Z) ^ 52) by (apply Z.pow_pos_nonneg; lia).
  rewrite nearest_unfold. cbv zeta. rewrite Hm, Hsh.
  destruct (k * 2 ^ (52 - l) =? 2 ^ 53) eqn:E1;
    [apply Z.eqb_eq in E1; lia|].
  destruct (k * 2 ^ (52 - l) =? 0) eqn:E2; [apply Z.eqb_eq in E2; lia|].
  destruct (971 <? l + 1022 - 1074) eqn:E3; [apply Z.ltb_lt in E3; lia|].
  eexists. eexists. split; [reflexivity|].
  unfold Float.mag_num, Float.mag_den. rewrite Z2Pos.id by lia.
  destruct (0 <=? l + 1022 - 1074) eqn:E4.
  - apply Z.leb_le in E4. assert (l = 52) by lia. subst l.
    replace (Z.log2 k + 1022 - 1074) with 0 in * by lia.
    replace (52 - Z.log2 k) with 0 by lia. change (2 ^ 0) with 1. lia.
  - f_equal. f_equal. lia.
Qed.

(** X15.  A float ping that passes the guard is positive and at most
    10000, and it is shown as the float whose value is the integer nearest
    to it, a tie going to the even integer (2.5 gives 2.0, 3.5 gives 4.0,
    0.3 gives 0.0): the rounded value is exact and stays within 0 and
    10000. *)
Theorem accepted_ping_rounds_to_even (s : bool) (m : positive) (e : Z) :
  ping_rejected (NFloat (S754_finite s m e)) = false ->
  s = false
  /\ 0 <= nearest_integer m e <= 10000
  /\ exists f,
      round (VFloat (S754_finite s m e)) 0 = Ok (NFloat f)
      /\ Float.xeq (Float.of_float f) (Float.of_int (nearest_integer m e))
         = true
      /\ format_ping (VFloat (S754_finite s m e))
         = Ok (Float.repr f ++ txt " ms").
Proof.
  intros G. pose proof G as G'.
  unfold ping_rejected in G. apply orb_false_iff in G. destruct G as [G L].
  cbn [exact] in G, L.
  pose proof (mag_num_pos m e) as N. pose proof (mag_den_pos e) as D.
  assert (S : s = false).
  { destruct s; [|reflexivity]. exfalso.
    cbn [Float.of_float zero_float] in L. unfold Float.xle, Float.xlt in L.
    apply orb_false_iff in L. destruct L as [L _].
    apply Z.ltb_ge in L. nia. }
  subst s. split; [reflexivity|].
  cbn [Float.of_float Float.of_int] in G. unfold Float.xgt, Float.xlt in G.
  apply Z.ltb_ge in G.
  assert (K0 : 0 <= nearest_integer m e)
    by (apply rhe_nonneg; lia).
  assert (K1 : nearest_integer m e <= 10000)
    by (apply rhe_le; lia).
  split; [lia|].
  assert (R : exists f,
             Float.round (S754_finite false m e) 0 = Ok f
             /\ Float.xeq (Float.of_float f)
                  (Float.of_int (nearest_integer m e)) = true).
  { cbn [Float.round]. change (Float.NDIGITS_MAX <? 0) with false.
    change (0 <? Float.NDIGITS_MIN) with false. cbv iota.
    unfold Float.double_round. change (0 <=? 0) with true. cbv iota.
    change (10 ^ 0) with 1. rewrite Z.mul_1_r.
    fold (nearest_integer m e).
    destruct (Z.eq_dec (nearest_integer m e) 0) as [Z0|NZ].
    - rewrite Z0. exists (S754_zero false). split; reflexivity.
    - assert (B : 0 < nearest_integer m e < 2 ^ 53).
      { split; [lia|]. change (2 ^ 53) with 9007199254740992. lia. }
      destruct (nearest_small_int false _ B) as (m' & e' & E & V).
      rewrite E. exists (S754_finite false m' e'). split; [reflexivity|].
      cbn [Float.of_float Float.of_int]. unfold Float.xeq.
      apply Z.eqb_eq. lia. }
  destruct R as (f & Hf & V). exists f.
  assert (Hr : round (VFloat (S754_finite false m e)) 0 = Ok (NFloat f))
    by (unfold round; cbn [as_num]; rewrite Hf; reflexivity).
  split; [exact Hr|]. split; [exact V|].
  rewrite (ping_guard (VFloat (S754_finite false m e))
             (NFloat (S754_finite false m e)) eq_refl), G', Hr.
  reflexivity.
Qed.

Lemma accepted_ping_rounds_to_even_witness :
  false = false
  /\ 0 <= nearest_integer 5629499534213120 (-51) <= 10000
  /\ exists f,
      round (VFloat (S754_finite false 5629499534213120 (-51))) 0
      = Ok (NFloat f)
      /\ Float.xeq (Float.of_float f)
           (Float.of_int (nearest_integer 5629499534213120 (-51))) = true
      /\ format_ping (VFloat (S754_finite false 5629499534213120 (-51)))
         = Ok (Float.repr f ++ txt " ms").
Proof.
  apply (accepted_ping_rounds_to_even false 5629499534213120 (-51)).
  vm_compute. reflexivity.
Defined.

Example ties_go_to_even :
  Float.nearest false 5 2 = S754_finite false 5629499534213120 (-51)
  /\ nearest_integer 5629499534213120 (-51) = 2
  /\ format_ping (VFloat (Float.nearest false 5 2)) = Ok (txt "2.0 ms")
  /\ format_ping (VFloat (Float.nearest false 7 2)) = Ok (txt "4.0 ms")
  /\ format_ping (VFloat (Float.nearest false 3 10)) = Ok (txt "0.0 ms").
Proof.
  split; [vm_compute; reflexivity|]. split; [vm_compute; reflexivity|].
  split; [vm_compute; reflexivity|]. split; vm_compute; reflexivity.
Qed.
